(** * The stylesheet plugin of fuse-box (src/plugins/stylesheet/CSSplugin.ts)

    A shallow embedding of [CSSPluginClass] and the properties of its
    transform, group finalisation, injection and change-notification code.

    JavaScript strings are modelled as [string]: a sequence of code units,
    each [ascii] standing for the code unit of the same number (0..255). *)

From Stdlib Require Import Ascii String Bool Arith Lia.
From stdpp Require Import base option list gmap strings.

Local Open Scope string_scope.
Local Open Scope list_scope.

(** ** Code units and string literals *)

Module Js.

(** The double quote, written by its code so that template strings of the
    source can be spelled without quoting a quote. *)
Definition dq : string := String (ascii_of_nat 34) EmptyString.
Definition bs : string := String (ascii_of_nat 92) EmptyString.

Definition code (c : ascii) : nat := nat_of_ascii c.

(** The class [\s] of JavaScript regular expressions, and the characters
    [String.prototype.trim] strips, on code units below 256: TAB, LF, VT, FF,
    CR, SPACE and NBSP. *)
Definition is_space (c : ascii) : bool :=
  let n := code c in
  Nat.eqb n 9 || Nat.eqb n 10 || Nat.eqb n 11 || Nat.eqb n 12 || Nat.eqb n 13
  || Nat.eqb n 32 || Nat.eqb n 160.

(** The alternation [\t|\r|\n]. *)
Definition is_tab_cr_lf (c : ascii) : bool :=
  let n := code c in
  Nat.eqb n 9 || Nat.eqb n 13 || Nat.eqb n 10.

Definition sp : ascii := ascii_of_nat 32.

(** JavaScript truthiness of a string: every string but the empty one. *)
Definition truthy (s : string) : bool :=
  match s with
  | EmptyString => false
  | String _ _ => true
  end.

(** *** [s.replace(/\s{2,}/g, " ")]

    The scanner of the greedy pattern [\s{2,}], as the automaton it is: [Out]
    outside a run of white space, [One p] after a single white-space unit [p]
    (kept if the run ends there), [Many] inside a run of two or more (replaced
    by one space when it ends). *)
Inductive run := Out | One (p : ascii) | Many.

Fixpoint collapse_from (r : run) (s : string) : string :=
  match s with
  | EmptyString =>
      match r with
      | Out => EmptyString
      | One p => String p EmptyString
      | Many => String sp EmptyString
      end
  | String c s' =>
      if is_space c then
        match r with
        | Out => collapse_from (One c) s'
        | One _ | Many => collapse_from Many s'
        end
      else
        match r with
        | Out => String c (collapse_from Out s')
        | One p => String p (String c (collapse_from Out s'))
        | Many => String sp (String c (collapse_from Out s'))
        end
  end.

Definition collapse_spaces (s : string) : string := collapse_from Out s.

(** *** [s.replace(/\t|\r|\n/g, "")] *)
Fixpoint strip_breaks (s : string) : string :=
  match s with
  | EmptyString => EmptyString
  | String c s' =>
      if is_tab_cr_lf c then strip_breaks s' else String c (strip_breaks s')
  end.

(** *** [s.trim()] *)
Fixpoint trim_start (s : string) : string :=
  match s with
  | EmptyString => EmptyString
  | String c s' => if is_space c then trim_start s' else s
  end.

Fixpoint trim_end (s : string) : string :=
  match s with
  | EmptyString => EmptyString
  | String c s' =>
      match trim_end s' with
      | EmptyString => if is_space c then EmptyString else String c EmptyString
      | t => String c t
      end
  end.

Definition trim (s : string) : string := trim_end (trim_start s).

(** *** [JSON.stringify] on a string (QuoteJSONString) *)
Definition hex_digit (n : nat) : ascii :=
  if Nat.ltb n 10 then ascii_of_nat (48 + n) else ascii_of_nat (87 + n).

Definition quote_unit (c : ascii) : string :=
  let n := code c in
  if Nat.eqb n 8 then bs +:+ "b"
  else if Nat.eqb n 9 then bs +:+ "t"
  else if Nat.eqb n 10 then bs +:+ "n"
  else if Nat.eqb n 12 then bs +:+ "f"
  else if Nat.eqb n 13 then bs +:+ "r"
  else if Nat.eqb n 34 then bs +:+ dq
  else if Nat.eqb n 92 then bs +:+ bs
  else if Nat.ltb n 32 then
    bs +:+ "u00" +:+ String (hex_digit (n / 16)) (String (hex_digit (n mod 16)) EmptyString)
  else String c EmptyString.

Fixpoint quote_units (s : string) : string :=
  match s with
  | EmptyString => EmptyString
  | String c s' => quote_unit c +:+ quote_units s'
  end.

Definition JSON_stringify (s : string) : string := dq +:+ quote_units s +:+ dq.

End Js.

(** ** [minifyContents] *)

(** [contents.replace(/\s{2,}/g, " ").replace(/\t|\r|\n/g, "").trim()] *)
Definition minifyContents (contents : string) : string :=
  Js.trim (Js.strip_breaks (Js.collapse_spaces contents)).

(** ** Data model *)

(** [CSSPluginOptions]: [outFile?: {(file: string): string} | string],
    [inject?: boolean | {(file: string): string}], [group?: string],
    [minify?: boolean]. *)
Inductive OutFile :=
  | OutUndefined
  | OutString (s : string)
  | OutFunction (f : string -> string).

Inductive Inject :=
  | InjectUndefined
  | InjectBool (b : bool)
  | InjectFunction (f : string -> string).

Record CSSPluginOptions := {
  outFile : OutFile;
  injectOpt : Inject;
  group : option string;
  minifyOpt : option bool
}.

(** The plugin instance: [this.options] and the private [this.minify]. *)
Record CSSPluginClass := {
  options : CSSPluginOptions;
  minify : bool
}.

(** The constructor: [minify] is [false] unless [opts.minify] is defined. *)
Definition CSSPlugin (opts : CSSPluginOptions) : CSSPluginClass :=
  {| options := opts;
     minify := match minifyOpt opts with Some b => b | None => false end |}.

(** Truthiness of the option values, as [if (options.outFile)] and
    [if (this.options.group)] test them. *)
Definition outFile_truthy (o : OutFile) : bool :=
  match o with
  | OutUndefined => false
  | OutString s => Js.truthy s
  | OutFunction _ => true
  end.

Definition opt_truthy (o : option string) : bool :=
  match o with
  | None => false
  | Some s => Js.truthy s
  end.

(** A reference to a [File] object: its index in the store of the context. *)
Abbreviation ref := nat (only parsing).

Record PathInfo := {
  fuseBoxPath : string;
  absPath : string
}.

(** The fields of the host's [File] that the plugin reads or writes. *)
Record File := {
  info : PathInfo;
  contents : string;
  isLoaded : bool;
  sourceMap : option string;
  alternativeContent : option string;
  subFiles : list ref;
  groupHandler : option CSSPluginClass;
  collection : nat
}.

Definition with_contents (s : string) (f : File) : File :=
  {| info := info f; contents := s; isLoaded := isLoaded f;
     sourceMap := sourceMap f; alternativeContent := alternativeContent f;
     subFiles := subFiles f; groupHandler := groupHandler f;
     collection := collection f |}.

Definition with_loaded (s : string) (f : File) : File :=
  {| info := info f; contents := s; isLoaded := true;
     sourceMap := sourceMap f; alternativeContent := alternativeContent f;
     subFiles := subFiles f; groupHandler := groupHandler f;
     collection := collection f |}.

Definition with_sourceMap (m : option string) (f : File) : File :=
  {| info := info f; contents := contents f; isLoaded := isLoaded f;
     sourceMap := m; alternativeContent := alternativeContent f;
     subFiles := subFiles f; groupHandler := groupHandler f;
     collection := collection f |}.

Definition with_alternativeContent (s : string) (f : File) : File :=
  {| info := info f; contents := contents f; isLoaded := isLoaded f;
     sourceMap := sourceMap f; alternativeContent := Some s;
     subFiles := subFiles f; groupHandler := groupHandler f;
     collection := collection f |}.

Definition with_subFile (r : ref) (f : File) : File :=
  {| info := info f; contents := contents f; isLoaded := isLoaded f;
     sourceMap := sourceMap f; alternativeContent := alternativeContent f;
     subFiles := subFiles f ++ [r]; groupHandler := groupHandler f;
     collection := collection f |}.

(** The event [{ type, content, path }] given to [sourceChangedEmitter]. *)
Record ChangeEvent := {
  ev_type : string;
  ev_content : option string;
  ev_path : string
}.

(** What the host can observe of a run, in the order it happens: calls into
    the host and the file system, and assignments to fields of a [File]. *)
Inductive Event :=
  | Debug (text : string)
  | ReadSource (path : string)
  | EnsureUserPath (path : string)
  | WriteBegin (fileName data : string)
  | WriteEnd (fileName : string)
  | WriteError (fileName : string)
  | Emit (ev : ChangeEvent)
  | Fatal (msg : string)
  | SetContents (file : ref) (s : string)
  | SetSourceMap (file : ref) (m : option string)
  | AddAlternativeContent (file : ref) (s : string)
  | CreateFileGroup (name : string) (file : ref)
  | AddSubFile (grp file : ref).

Global Instance ChangeEvent_eq_dec : EqDecision ChangeEvent.
Proof. solve_decision. Defined.

Global Instance Event_eq_dec : EqDecision Event.
Proof. solve_decision. Defined.

Record Bundle := {
  lastChangedFile : option string
}.

(** The [WorkFlowContext] as the plugin sees it: the [File] objects (shared,
    reached through references), the table of file groups, [context.bundle],
    and the log of what happened. *)
Record Context := {
  files : list File;
  fileGroups : gmap string ref;
  bundle : option Bundle;
  trace : list Event
}.

Definition with_files (fs : list File) (c : Context) : Context :=
  {| files := fs; fileGroups := fileGroups c; bundle := bundle c;
     trace := trace c |}.

Definition with_fileGroups (g : gmap string ref) (c : Context) : Context :=
  {| files := files c; fileGroups := g; bundle := bundle c;
     trace := trace c |}.

Definition logged (e : Event) (c : Context) : Context :=
  {| files := files c; fileGroups := fileGroups c; bundle := bundle c;
     trace := trace c ++ [e] |}.

(** ** Runs: state, exceptions and promises

    A piece of plugin code started in a context either completes, throws, or
    hands back a promise for a write in progress together with what runs
    once the write has finished ([write(f, d).then(k)]). *)
Inductive Run (A : Type) :=
  | Normal (a : A) (c : Context)
  | Abrupt (e : string) (c : Context)
  | Await (fileName : string) (c : Context) (k : Context -> Run A).

Arguments Normal {A} a c.
Arguments Abrupt {A} e c.
Arguments Await {A} fileName c k.

Definition M (A : Type) : Type := Context -> Run A.

Definition ret {A} (a : A) : M A := fun c => Normal a c.

Fixpoint bind_run {A B} (r : Run A) (k : A -> M B) : Run B :=
  match r with
  | Normal a c => k a c
  | Abrupt e c => Abrupt e c
  | Await f c k' => Await f c (fun c' => bind_run (k' c') k)
  end.

Definition bind {A B} (m : M A) (k : A -> M B) : M B :=
  fun c => bind_run (m c) k.

Declare Scope run_scope.
Delimit Scope run_scope with run.
Notation "'let*' x ':=' m 'in' k" := (bind m (fun x => k))
  (at level 10, x name, m at level 100, k at level 200) : run_scope.
Notation "m '>>>' k" := (bind m (fun _ => k))
  (at level 100, k at level 200, right associativity) : run_scope.
Local Open Scope run_scope.

Definition throw {A} (e : string) : M A := fun c => Abrupt e c.
Definition log (e : Event) : M unit := fun c => Normal tt (logged e c).
Definition getContext : M Context := fun c => Normal c c.

(** Reading through a reference. Every reference the host hands to the
    plugin points to an object; a dangling one is a [TypeError]. *)
Definition getFile (r : ref) : M File :=
  fun c => match files c !! r with
           | Some f => Normal f c
           | None => Abrupt "TypeError" c
           end.

(** Writing a field through a reference. *)
Definition updFile (r : ref) (g : File -> File) : M unit :=
  fun c => match files c !! r with
           | Some f => Normal tt (with_files (<[r := g f]> (files c)) c)
           | None => Abrupt "TypeError" c
           end.

(** How a run ends once the file system has answered every write. *)
Inductive Outcome (A : Type) :=
  | Fulfilled (a : A) (c : Context)
  | Rejected (e : string) (c : Context).

Arguments Fulfilled {A} a c.
Arguments Rejected {A} e c.

(** The context a run ends in, however it ends. *)
Definition outcome_context {A} (o : Outcome A) : Context :=
  match o with
  | Fulfilled _ c => c
  | Rejected _ c => c
  end.

(** ** The host

    What the plugin imports and this file does not contain: the helpers of
    [Utils], Node's [path] module and the file system. They are parameters of
    the development. *)
Record Host := {
  (** [isStylesheetExtension] of [Utils]. *)
  isStylesheetExtension : string -> bool;
  (** [ensureUserPath] of [Utils]: the path it returns. *)
  ensureUserPath : string -> string;
  (** [path.dirname], [path.basename] and [path.join]. *)
  path_dirname : string -> string;
  path_basename : string -> string;
  path_join : string -> string -> string;
  (** What [loadContents] finds on disk at an absolute path. *)
  readFileSync : string -> string;
  (** Whether the file system completes a write to this file. *)
  fs_accepts : string -> bool;
  (** [file.generateCorrectSourceMap()]. *)
  generateCorrectSourceMap : File -> option string;
  (** The merged source map of a [Concat], from what was added to it. *)
  mergeSourceMaps : list (option string * string * option string) -> string
}.

Section Plugin.

Context (H : Host).

(** *** Host operations

    The methods of [File] and [WorkFlowContext] and the helpers of [Utils]
    that the plugin calls. Their code is not among the sources; each is
    modelled from what the spec says of it. *)

(** Modelled from the spec: [File.hasSubFiles] (core/File.ts is not among
    the sources): whether the module has absorbed sub-members. *)
Definition hasSubFiles (f : File) : bool :=
  match subFiles f with
  | [] => false
  | _ :: _ => true
  end.

(** Modelled from the spec: [File.loadContents] (core/File.ts is not among
    the sources): loads the module's raw content if not already loaded. *)
Definition loadContents (r : ref) : M unit :=
  let* f := getFile r in
  if isLoaded f then ret tt
  else
    log (ReadSource (absPath (info f))) >>>
    updFile r (with_loaded (readFileSync H (absPath (info f)))).

(** Modelled from the spec: [File.addAlternativeContent] (core/File.ts is not
    among the sources): sets the alternative content, the JS-visible
    replacement for the original module body. *)
Definition addAlternativeContent (r : ref) (s : string) : M unit :=
  log (AddAlternativeContent r s) >>>
  updFile r (with_alternativeContent s).

(** [file.contents = s] *)
Definition setContents (r : ref) (s : string) : M unit :=
  log (SetContents r s) >>> updFile r (with_contents s).

(** [file.sourceMap = m] *)
Definition setSourceMap (r : ref) (m : option string) : M unit :=
  log (SetSourceMap r m) >>> updFile r (with_sourceMap m).

(** Modelled from the spec: [File.addSubFile] (core/File.ts is not among the
    sources): appends a member; members are kept in first-appended order. *)
Definition addSubFile (g r : ref) : M unit :=
  log (AddSubFile g r) >>> updFile g (with_subFile r).

(** Modelled from the spec: [context.getFileGroup]
    (core/WorkflowContext.ts is not among the sources): the existing group of
    that name, if any. *)
Definition getFileGroup (name : string) : M (option ref) :=
  fun c => Normal (fileGroups c !! name) c.

(** Modelled from the spec: [context.createFileGroup]
    (core/WorkflowContext.ts is not among the sources): a new aggregation
    point whose logical path is the group's name, bound to the plugin that
    creates it, and registered under the name. *)
Definition newGroupFile (name : string) (coll : nat)
    (handler : CSSPluginClass) : File :=
  {| info := {| fuseBoxPath := name; absPath := name |};
     contents := EmptyString; isLoaded := false;
     sourceMap := None; alternativeContent := None;
     subFiles := []; groupHandler := Some handler;
     collection := coll |}.

Definition createFileGroup (name : string) (coll : nat)
    (handler : CSSPluginClass) : M ref :=
  fun c =>
    let r := length (files c) in
    Normal r
      (logged (CreateFileGroup name r)
         (with_fileGroups (<[name := r]> (fileGroups c))
            (with_files (files c ++ [newGroupFile name coll handler]) c))).

(** Modelled from the spec: [context.fatal] (core/WorkflowContext.ts is not
    among the sources): reports on the host's fatal-error channel and halts
    the processing of the module. *)
Definition fatal {A} (msg : string) : M A :=
  log (Fatal msg) >>> throw msg.

(** Modelled from the spec: [context.debugPlugin] (core/WorkflowContext.ts
    is not among the sources): the debug sink of the host. *)
Definition debug (text : string) : M unit := log (Debug text).

(** Modelled from the spec: [context.sourceChangedEmitter.emit]
    (core/WorkflowContext.ts is not among the sources): the change-broadcast
    channel of the host. *)
Definition emit (ev : ChangeEvent) : M unit := log (Emit ev).

(** Modelled from the spec: [ensureUserPath] (Utils.ts is not among the
    sources): guards the path and returns the path to write to. *)
Definition ensurePath (p : string) : M string :=
  log (EnsureUserPath p) >>> ret (ensureUserPath H p).

(** Modelled from the spec: [write] (Utils.ts is not among the sources): an
    asynchronous write. The call starts the write and returns its promise;
    what is bound after it ([.then]) runs when the write has completed. *)
Definition write (fileName data : string) : M unit :=
  fun c => Await fileName (logged (WriteBegin fileName data) c)
             (fun c' => Normal tt c').

(** The file system answers the pending writes of a run, one after the
    other; a write it refuses rejects the promise. *)
Fixpoint settle {A} (r : Run A) : Outcome A :=
  match r with
  | Normal a c => Fulfilled a c
  | Abrupt e c => Rejected e c
  | Await f c k =>
      if fs_accepts H f then settle (k (logged (WriteEnd f) c))
      else Rejected "write" (logged (WriteError f) c)
  end.

(** *** [Concat] of [Utils]

    Modelled from the spec: the Concatenator merges (identifier, content,
    source map) triples into one content blob, in input order; the plugin
    builds it with the separator ["\n"]. *)
Definition Concat := list (option string * string * option string).

Definition nl : string := String (ascii_of_nat 10) EmptyString.

Definition concat_add (name : option string) (content : string)
    (map : option string) (cc : Concat) : Concat :=
  (cc ++ [(name, content, map)])%list.

Fixpoint join_parts (parts : list string) : string :=
  match parts with
  | [] => EmptyString
  | [p] => p
  | p :: rest => p +:+ nl +:+ join_parts rest
  end.

Definition concat_content (cc : Concat) : string :=
  join_parts (map (fun e => snd (fst e)) cc).

Definition concat_sourceMap (cc : Concat) : string := mergeSourceMaps H cc.

(** [l.forEach(x => ...)] with the local object the body updates. *)
Fixpoint foldM {A B} (l : list A) (body : B -> A -> M B) (acc : B) : M B :=
  match l with
  | [] => ret acc
  | x :: l' => let* acc' := body acc x in foldM l' body acc'
  end.

(** *** The methods of [CSSPluginClass] *)

(** The three runtime call strings of the source. *)
Definition reference_call (path : string) : string :=
  "__fsbx_css(" +:+ Js.dq +:+ path +:+ Js.dq +:+ ");".

Definition group_value_call (path safeContents : string) : string :=
  "__fsbx_css(" +:+ Js.dq +:+ path +:+ Js.dq +:+ ", " +:+ safeContents +:+ ");".

Definition value_call (path safeContents : string) : string :=
  "__fsbx_css(" +:+ Js.dq +:+ path +:+ Js.dq +:+ ", " +:+ safeContents +:+ ")".

Definition require_marker (bundleName : string) : string :=
  "require(" +:+ Js.dq +:+ "~/" +:+ bundleName +:+ Js.dq +:+ ")".

(** [resolvedPath] and [result] of [inject]. *)
Definition inject_resolvedPath (o : CSSPluginOptions) (path : string) : string :=
  match injectOpt o with
  | InjectFunction f => f path
  | _ => path
  end.

Definition inject_result (o : CSSPluginOptions) (path : string) : string :=
  match injectOpt o with
  | InjectBool false => EmptyString
  | _ => reference_call (inject_resolvedPath o path)
  end.

(** [inject(file, options, alternative)] *)
Definition inject (file : ref) (o : CSSPluginOptions) (alternative : bool)
    : M unit :=
  let* f := getFile file in
  let result := inject_result o (fuseBoxPath (info f)) in
  if alternative then addAlternativeContent file result
  else setContents file result.

(** [emitHMR(file)] *)

(** The value of [bundle && bundle.lastChangedFile] when it is truthy. *)
Definition lastChanged (b : option Bundle) : option string :=
  match b with
  | Some {| lastChangedFile := Some p |} => if Js.truthy p then Some p else None
  | _ => None
  end.

Definition emitRequired (b : option Bundle) : bool :=
  match lastChanged b with
  | Some p => isStylesheetExtension H p
  | None => true
  end.

Definition emitHMR (file : ref) : M unit :=
  let* c := getContext in
  if emitRequired (bundle c) then
    let* f := getFile file in
    emit {| ev_type := "js";
            ev_content := alternativeContent f;
            ev_path := fuseBoxPath (info f) |}
  else ret tt.

(** [transformGroup(group)] *)
Definition concat_member (cc : Concat) (file : ref) : M Concat :=
  let* f := getFile file in
  debug ("  -> Concat " +:+ fuseBoxPath (info f)) >>>
  ret (concat_add (Some (fuseBoxPath (info f))) (contents f)
         (generateCorrectSourceMap H f) cc).

Definition transformGroup (this : CSSPluginClass) (grp : ref) : M unit :=
  let* g := getFile grp in
  let gpath := fuseBoxPath (info g) in
  debug ("Start group transformation on " +:+ Js.dq +:+ gpath +:+ Js.dq) >>>
  let* concat := foldM (subFiles g) concat_member [] in
  match groupHandler g with
  | None => throw "TypeError"
  | Some handler =>
      let o := options handler in
      let cssContents := concat_content concat in
      if outFile_truthy (outFile o) then
        match outFile o with
        | OutString userPath =>
            let* out := ensurePath userPath in
            let bundleDir := path_dirname H out in
            let sourceMapsName := path_basename H out +:+ ".map" in
            let concat' :=
              concat_add None
                ("/*# sourceMappingURL=" +:+ sourceMapsName +:+ " */") None
                concat in
            debug ("Writing " +:+ out) >>>
            write out (concat_content concat') >>>
            inject grp o false >>>
            let* sourceMapsFile :=
              ensurePath (path_join H bundleDir sourceMapsName) in
            write sourceMapsFile (concat_sourceMap concat')
        | _ =>
            (* [ensureUserPath] takes a path string; a function is not one *)
            throw "TypeError"
        end
      else
        debug ("Inlining " +:+ gpath) >>>
        let safeContents := Js.JSON_stringify cssContents in
        addAlternativeContent grp (group_value_call gpath safeContents) >>>
        emitHMR grp
  end.

(** [transform(file)] *)
Definition fatal_message : string :=
  "Error in CSSConfig. outFile is expected to be a function that resolves a path".

Definition transform (this : CSSPluginClass) (file : ref) : M unit :=
  let* f0 := getFile file in
  if hasSubFiles f0 then ret tt
  else
    loadContents file >>>
    let filePath := fuseBoxPath (info f0) in
    let* f1 := getFile file in
    setContents file
      (if minify this then minifyContents (contents f1) else contents f1) >>>
    if opt_truthy (group (options this)) then
      setSourceMap file None >>>
      let bundleName := default EmptyString (group (options this)) in
      let* existing := getFileGroup bundleName in
      let* fileGroup :=
        match existing with
        | Some g => ret g
        | None => createFileGroup bundleName (collection f0) this
        end in
      addSubFile fileGroup file >>>
      debug ("  grouping -> " +:+ bundleName) >>>
      addAlternativeContent file (require_marker bundleName)
    else
      let* outFileFunction :=
        match outFile (options this) with
        | OutUndefined => ret None
        | OutString _ => fatal fatal_message
        | OutFunction fn => ret (Some fn)
        end in
      match outFileFunction with
      | Some fn =>
          let* userPath := ensurePath (fn filePath) in
          inject file (options this) true >>>
          let* f2 := getFile file in
          write userPath (contents f2) >>>
          let* f3 := getFile file in
          match sourceMap f3 with
          | Some m =>
              if Js.truthy m then
                let fileDir := path_dirname H userPath in
                let sourceMapPath :=
                  path_join H fileDir (path_basename H userPath +:+ ".map") in
                write sourceMapPath m
              else ret tt
          | None => ret tt
          end
      | None =>
          let* f2 := getFile file in
          let safeContents := Js.JSON_stringify (contents f2) in
          setSourceMap file None >>>
          addAlternativeContent file (value_call filePath safeContents) >>>
          emitHMR file
      end.

End Plugin.

Arguments transform H this file c : rename.
Arguments transformGroup H this grp c : rename.

(** ** A sample host and sample builds

    A host for the concrete scenarios: stylesheets are the paths that end in
    [.css], user paths are kept as they are, paths are split at the last
    slash, every source on disk is empty and every write succeeds. *)
Module Sample.

Fixpoint ends_with (suffix s : string) : bool :=
  String.eqb s suffix ||
  match s with
  | EmptyString => false
  | String _ s' => ends_with suffix s'
  end.

Fixpoint has_slash (s : string) : bool :=
  match s with
  | EmptyString => false
  | String c s' => Ascii.eqb c "/" || has_slash s'
  end.

Fixpoint dirname (s : string) : string :=
  match s with
  | EmptyString => EmptyString
  | String c s' => if has_slash s' then String c (dirname s') else EmptyString
  end.

Fixpoint basename (s : string) : string :=
  match s with
  | EmptyString => EmptyString
  | String c s' => if has_slash s then basename s' else s
  end.

Definition host : Host :=
  {| isStylesheetExtension := ends_with ".css";
     ensureUserPath := fun p => p;
     path_dirname := dirname;
     path_basename := basename;
     path_join := fun a b => a +:+ "/" +:+ b;
     readFileSync := fun _ => EmptyString;
     fs_accepts := fun _ => true;
     generateCorrectSourceMap := sourceMap;
     mergeSourceMaps := fun _ => "{}" |}.

Definition noOptions : CSSPluginOptions :=
  {| outFile := OutUndefined; injectOpt := InjectUndefined;
     group := None; minifyOpt := None |}.

Definition module (path body : string) : File :=
  {| info := {| fuseBoxPath := path; absPath := "/src/" +:+ path |};
     contents := body; isLoaded := true;
     sourceMap := Some "{}"; alternativeContent := None;
     subFiles := []; groupHandler := None; collection := 0 |}.

Definition build (fs : list File) (changed : option Bundle) : Context :=
  {| files := fs; fileGroups := ∅; bundle := changed; trace := [] |}.

Definition a_css : File := module "a.css" ".a{color:red}".
Definition b_css : File := module "b.css" ".b{color:blue}".

(** A module the host has discovered and not read yet. *)
Definition discovered (path : string) : File :=
  {| info := {| fuseBoxPath := path; absPath := "/src/" +:+ path |};
     contents := EmptyString; isLoaded := false;
     sourceMap := None; alternativeContent := None;
     subFiles := []; groupHandler := None; collection := 0 |}.

(** The context a run ends in on the sample host. *)
Definition after {A} (r : Run A) : Context :=
  outcome_context (settle host r).

Definition file_at (c : Context) (r : ref) : File :=
  default a_css (files c !! r).

(** [CSSPlugin()] *)
Definition inline_plugin : CSSPluginClass := CSSPlugin noOptions.

(** [CSSPlugin({ inject: false })] *)
Definition silent_plugin : CSSPluginClass :=
  CSSPlugin {| outFile := OutUndefined; injectOpt := InjectBool false;
               group := None; minifyOpt := None |}.

(** [CSSPlugin({ outFile: "dist/a.css" })] *)
Definition static_plugin : CSSPluginClass :=
  CSSPlugin {| outFile := OutString "dist/a.css"; injectOpt := InjectUndefined;
               group := None; minifyOpt := None |}.

(** [CSSPlugin({ outFile: file => "dist/" + file })] *)
Definition dist_options : CSSPluginOptions :=
  {| outFile := OutFunction (fun file => "dist/" +:+ file);
     injectOpt := InjectUndefined; group := None; minifyOpt := None |}.

Definition dist_plugin : CSSPluginClass := CSSPlugin dist_options.

(** [CSSPlugin({ outFile: file => "dist/" + file, inject: false })] *)
Definition silent_dist_options : CSSPluginOptions :=
  {| outFile := OutFunction (fun file => "dist/" +:+ file);
     injectOpt := InjectBool false; group := None; minifyOpt := None |}.

Definition silent_dist_plugin : CSSPluginClass := CSSPlugin silent_dist_options.

(** [CSSPlugin({ group: "bundle.css" })] *)
Definition group_plugin : CSSPluginClass :=
  CSSPlugin {| outFile := OutUndefined; injectOpt := InjectUndefined;
               group := Some "bundle.css"; minifyOpt := None |}.

(** [CSSPlugin({ group: "bundle.css", outFile: "dist/bundle.css" })] *)
Definition bundle_plugin : CSSPluginClass :=
  CSSPlugin {| outFile := OutString "dist/bundle.css";
               injectOpt := InjectUndefined;
               group := Some "bundle.css"; minifyOpt := None |}.

(** [CSSPlugin({ group: "bundle.css", inject: false })] *)
Definition silent_group_plugin : CSSPluginClass :=
  CSSPlugin {| outFile := OutUndefined; injectOpt := InjectBool false;
               group := Some "bundle.css"; minifyOpt := None |}.

(** A full build of [a.css] and [b.css], and the same build once a plugin
    has put the first, and then both, into its group. *)
Definition full_build : Context := build [a_css; b_css] None.

Definition one_grouped (p : CSSPluginClass) : Context :=
  after (transform host p 0 full_build).

Definition both_grouped (p : CSSPluginClass) : Context :=
  after (transform host p 1 (one_grouped p)).

End Sample.

(** ** What a run is expected to leave behind *)

Section Expected.

Context (H : Host).

(** The contents the module has after [loadContents] and the minifier. *)
Definition loaded_contents (f : File) : string :=
  if isLoaded f then contents f else readFileSync H (absPath (info f)).

Definition final_contents (this : CSSPluginClass) (f : File) : string :=
  if minify this then minifyContents (loaded_contents f)
  else loaded_contents f.

Definition load_events (f : File) : list Event :=
  if isLoaded f then [] else [ReadSource (absPath (info f))].

(** The module once loaded and minified. *)
Definition prepared (this : CSSPluginClass) (f : File) : File :=
  with_contents (final_contents this f) (with_loaded (loaded_contents f) f).

Definition change_event (f : File) : ChangeEvent :=
  {| ev_type := "js"; ev_content := alternativeContent f;
     ev_path := fuseBoxPath (info f) |}.

Definition hmr_events (c : Context) (f : File) : list Event :=
  if emitRequired H (bundle c) then [Emit (change_event f)] else [].

(** What a member contributes to the concatenation and to the log. *)
Definition member_entry (f : File) : option string * string * option string :=
  (Some (fuseBoxPath (info f)), contents f, generateCorrectSourceMap H f).

Definition member_debug (f : File) : Event :=
  Debug ("  -> Concat " +:+ fuseBoxPath (info f)).

Definition group_start (g : File) : Event :=
  Debug ("Start group transformation on " +:+ Js.dq +:+ fuseBoxPath (info g)
         +:+ Js.dq).

(** The names the output-path branch of [transformGroup] computes. *)
Definition group_outFile (userPath : string) : string :=
  ensureUserPath H userPath.

Definition group_mapName (userPath : string) : string :=
  path_basename H (group_outFile userPath) +:+ ".map".

Definition group_mapPath (userPath : string) : string :=
  path_join H (path_dirname H (group_outFile userPath)) (group_mapName userPath).

Definition group_mapFile (userPath : string) : string :=
  ensureUserPath H (group_mapPath userPath).

Definition group_concat (members : list File) (userPath : string) : Concat :=
  concat_add None
    ("/*# sourceMappingURL=" +:+ group_mapName userPath +:+ " */") None
    (map member_entry members).

(** The names the output-path branch of [transform] computes. *)
Definition module_outFile (fn : string -> string) (f : File) : string :=
  ensureUserPath H (fn (fuseBoxPath (info f))).

Definition module_mapFile (fn : string -> string) (f : File) : string :=
  path_join H (path_dirname H (module_outFile fn f))
    (path_basename H (module_outFile fn f) +:+ ".map").

(** The events of [c'] that [c] does not have yet. *)
Definition events_since (c c' : Context) : list Event :=
  drop (length (trace c)) (trace c').

End Expected.

(** ** Shapes of strings used in the proofs *)

(** No two adjacent white-space units; [prev] tells whether the unit before
    the string is white space. *)
Fixpoint spaced (prev : bool) (s : string) : bool :=
  match s with
  | EmptyString => true
  | String c s' =>
      if Js.is_space c then negb prev && spaced true s' else spaced false s'
  end.

(** No TAB, CR or LF. *)
Fixpoint unbroken (s : string) : bool :=
  match s with
  | EmptyString => true
  | String c s' => negb (Js.is_tab_cr_lf c) && unbroken s'
  end.

(** Does not start with white space. *)
Definition starts_clean (s : string) : bool :=
  match s with
  | EmptyString => true
  | String c _ => negb (Js.is_space c)
  end.

(** The unit kept by the scanner of [collapse_from] is white space. *)
Definition run_ready (r : Js.run) : Prop :=
  match r with
  | Js.One p => Js.is_space p = true
  | _ => True
  end.

(** [e1] is logged, and [e2] is logged after it. *)
Fixpoint occurs (e : Event) (tr : list Event) : bool :=
  match tr with
  | [] => false
  | x :: tr' => bool_decide (x = e) || occurs e tr'
  end.

Fixpoint precedes (e1 e2 : Event) (tr : list Event) : bool :=
  match tr with
  | [] => false
  | x :: tr' =>
      if bool_decide (x = e1) then occurs e2 tr' else precedes e1 e2 tr'
  end.

Definition is_write (e : Event) : bool :=
  match e with
  | WriteBegin _ _ | WriteEnd _ | WriteError _ => true
  | _ => false
  end.

Definition is_emit (e : Event) : bool :=
  match e with
  | Emit _ => true
  | _ => false
  end.

(** ** Further shapes and helpers *)

(** Does not end with white space. *)
Fixpoint ends_clean (s : string) : bool :=
  match s with
  | EmptyString => true
  | String c EmptyString => negb (Js.is_space c)
  | String _ s' => ends_clean s'
  end.

(** The units of a string that are not white space, in order. *)
Fixpoint solid_units (s : string) : string :=
  match s with
  | EmptyString => EmptyString
  | String c s' =>
      if Js.is_space c then solid_units s' else String c (solid_units s')
  end.

(** Made of white space only. *)
Fixpoint blank (s : string) : bool :=
  match s with
  | EmptyString => true
  | String c s' => Js.is_space c && blank s'
  end.

(** The units the scanner of [collapse_from] still has to put out. *)
Definition pending (r : Js.run) : nat :=
  match r with
  | Js.Out => 0
  | Js.One _ | Js.Many => 1
  end.

(** *** Reading a JSON string literal back

    The reader of the literals [JSON.stringify] writes, used to state that
    nothing of the contents is lost: it reads escaped units up to the closing
    quote and ignores what follows it. *)
Definition hex_value (c : ascii) : option nat :=
  let n := Js.code c in
  if Nat.leb 48 n && Nat.leb n 57 then Some (n - 48)
  else if Nat.leb 97 n && Nat.leb n 102 then Some (n - 87)
  else None.

Definition unquote_escape (e : ascii) : option ascii :=
  let n := Js.code e in
  if Nat.eqb n 98 then Some (ascii_of_nat 8)
  else if Nat.eqb n 116 then Some (ascii_of_nat 9)
  else if Nat.eqb n 110 then Some (ascii_of_nat 10)
  else if Nat.eqb n 102 then Some (ascii_of_nat 12)
  else if Nat.eqb n 114 then Some (ascii_of_nat 13)
  else if Nat.eqb n 34 then Some (ascii_of_nat 34)
  else if Nat.eqb n 92 then Some (ascii_of_nat 92)
  else None.

Fixpoint unquote_units (s : string) : option string :=
  match s with
  | EmptyString => None
  | String c rest =>
      if Nat.eqb (Js.code c) 34 then Some EmptyString
      else if Nat.eqb (Js.code c) 92 then
        match rest with
        | String e rest' =>
            if Nat.eqb (Js.code e) 117 then
              match rest' with
              | String _ (String _ (String x (String y rest''))) =>
                  match hex_value x, hex_value y, unquote_units rest'' with
                  | Some hi, Some lo, Some t =>
                      Some (String (ascii_of_nat (16 * hi + lo)) t)
                  | _, _, _ => None
                  end
              | _ => None
              end
            else
              match unquote_escape e, unquote_units rest' with
              | Some u, Some t => Some (String u t)
              | _, _ => None
              end
        | EmptyString => None
        end
      else
        match unquote_units rest with
        | Some t => Some (String c t)
        | None => None
        end
  end.

Definition JSON_read (s : string) : option string :=
  match s with
  | String c rest =>
      if Nat.eqb (Js.code c) 34 then unquote_units rest else None
  | EmptyString => None
  end.

(** No unit below 32, that is none of the C0 control characters, TAB, LF
    and CR among them. Only those are tested: DEL (127) and the units from
    128 on pass. *)
Fixpoint no_c0_units (s : string) : bool :=
  match s with
  | EmptyString => true
  | String c s' => Nat.leb 32 (Js.code c) && no_c0_units s'
  end.

(** *** The rest of the plugin *)

(** [test: RegExp = /\.css$/], as [test.test(path)] decides it: the pattern
    matches at some position of the path and the match ends the path. *)
Fixpoint test (path : string) : bool :=
  String.eqb path ".css" ||
  match path with
  | EmptyString => false
  | String _ rest => test rest
  end.

Section Sequences.

Context (H : Host).

(** The bundler handing modules to the plugin one after the other:
    [transform] on each, in order. *)
Fixpoint transformEach (this : CSSPluginClass) (modules : list ref) : M unit :=
  match modules with
  | [] => ret tt
  | r :: rest => transform H this r >>> transformEach this rest
  end.

(** A module as the group path of [transform] leaves it. *)
Definition grouped (this : CSSPluginClass) (name : string) (f : File) : File :=
  with_alternativeContent (require_marker name)
    (with_sourceMap None (prepared H this f)).

(** A module as the inline path of [transform] leaves it. *)
Definition inlined (this : CSSPluginClass) (f : File) : File :=
  with_alternativeContent
    (value_call (fuseBoxPath (info f))
       (Js.JSON_stringify (final_contents H this f)))
    (with_sourceMap None (prepared H this f)).

(** The source map of a module when it is truthy. *)
Definition truthy_sourceMap (f : File) : option string :=
  match sourceMap f with
  | Some m => if Js.truthy m then Some m else None
  | None => None
  end.

End Sequences.

(** *** What a run never does *)

Section Never.

Context (H : Host).

(** The run [r], started in [c], logs no event that [P] holds of, whatever
    the file system answers to its writes. *)
Definition never_from (P : Event -> bool) {A} (r : Run A) (c : Context)
    : Prop :=
  exists es,
    trace (outcome_context (settle H r)) = trace c ++ es /\
    existsb P es = false.

(** The code [m] never logs such an event, in whatever context it starts. *)
Definition never (P : Event -> bool) {A} (m : M A) : Prop :=
  forall c, never_from P (m c) c.

End Never.

(** *** More sample builds *)

Module MoreSamples.

Import Sample.

(** A module whose contents are spread over lines. *)
Definition c_css : File :=
  module "c.css" (".c {" +:+ nl +:+ "  color: green;" +:+ nl +:+ "}" +:+ nl).

(** [CSSPlugin({ minify: true })] *)
Definition minify_plugin : CSSPluginClass :=
  CSSPlugin {| outFile := OutUndefined; injectOpt := InjectUndefined;
               group := None; minifyOpt := Some true |}.

(** [CSSPlugin({ group: "bundle.css", minify: true })] *)
Definition minify_group_plugin : CSSPluginClass :=
  CSSPlugin {| outFile := OutUndefined; injectOpt := InjectUndefined;
               group := Some "bundle.css"; minifyOpt := Some true |}.

(** [CSSPlugin({ outFile: "" })] *)
Definition empty_outFile_plugin : CSSPluginClass :=
  CSSPlugin {| outFile := OutString EmptyString; injectOpt := InjectUndefined;
               group := None; minifyOpt := None |}.

(** [CSSPlugin({ group: "" })] *)
Definition empty_group_plugin : CSSPluginClass :=
  CSSPlugin {| outFile := OutUndefined; injectOpt := InjectUndefined;
               group := Some EmptyString; minifyOpt := None |}.

(** A full build of [a.css] and [c.css]. *)
Definition spread_build : Context := build [a_css; c_css] None.

End MoreSamples.

(** * Properties *)

(** ** Minification *)

Arguments Js.is_space : simpl never.
Arguments Js.is_tab_cr_lf : simpl never.

Section Minify.

Import Js.

Lemma breaks_are_spaces c : is_tab_cr_lf c = true -> is_space c = true.
Proof.
  unfold is_tab_cr_lf, is_space.
  generalize (code c); intros n Hn.
  destruct (Nat.eqb n 9); [reflexivity|].
  destruct (Nat.eqb n 10); [reflexivity|].
  destruct (Nat.eqb n 13); [|discriminate].
  destruct (Nat.eqb n 11), (Nat.eqb n 12); reflexivity.
Qed.

Lemma spaced_weaken s : spaced true s = true -> spaced false s = true.
Proof.
  destruct s as [|c s]; simpl; [easy|].
  destruct (is_space c); simpl; [discriminate | easy].
Qed.

Lemma spaced_any b s : spaced true s = true -> spaced b s = true.
Proof. destruct b; [easy | apply spaced_weaken]. Qed.

Lemma collapse_from_spaced s :
  forall r, run_ready r -> spaced false (collapse_from r s) = true.
Proof.
  induction s as [|c s IH]; intros r Hr.
  - destruct r as [|p|]; simpl; [reflexivity | | reflexivity].
    simpl in Hr. rewrite Hr. reflexivity.
  - simpl. destruct (is_space c) eqn:Hc.
    + destruct r; apply IH; simpl; auto.
    + destruct r as [|p|]; simpl.
      * rewrite Hc. apply IH. exact I.
      * simpl in Hr. rewrite Hr, Hc. simpl. apply IH. exact I.
      * change (is_space sp) with true. simpl. rewrite Hc. apply IH. exact I.
Qed.

Lemma strip_breaks_spaced s :
  forall b, spaced b s = true -> spaced b (strip_breaks s) = true.
Proof.
  induction s as [|c s IH]; intros b Hs; simpl; [reflexivity|].
  simpl in Hs. destruct (is_tab_cr_lf c) eqn:Hb.
  - rewrite (breaks_are_spaces _ Hb) in Hs.
    apply andb_prop in Hs as [_ Hs]. apply spaced_any, IH, Hs.
  - simpl. destruct (is_space c).
    + apply andb_prop in Hs as [Hp Hs]. rewrite Hp. simpl. apply IH, Hs.
    + apply IH, Hs.
Qed.

Lemma strip_breaks_unbroken s : unbroken (strip_breaks s) = true.
Proof.
  induction s as [|c s IH]; simpl; [reflexivity|].
  destruct (is_tab_cr_lf c) eqn:Hb; [exact IH|].
  simpl. rewrite Hb, IH. reflexivity.
Qed.

Lemma strip_breaks_id s : unbroken s = true -> strip_breaks s = s.
Proof.
  induction s as [|c s IH]; simpl; [reflexivity|].
  intros Hs. apply andb_prop in Hs as [Hc Hs].
  apply negb_true_iff in Hc. rewrite Hc, (IH Hs). reflexivity.
Qed.

Lemma trim_start_spaced s :
  forall b, spaced b s = true -> spaced true (trim_start s) = true.
Proof.
  induction s as [|c s IH]; intros b Hs; simpl; [reflexivity|].
  simpl in Hs. destruct (is_space c) eqn:Hc.
  - apply andb_prop in Hs as [_ Hs]. apply (IH true), Hs.
  - simpl. rewrite Hc. exact Hs.
Qed.

Lemma trim_start_unbroken s : unbroken s = true -> unbroken (trim_start s) = true.
Proof.
  induction s as [|c s IH]; simpl; [reflexivity|].
  intros Hs. destruct (is_space c); [|exact Hs].
  apply andb_prop in Hs as [_ Hs]. apply IH, Hs.
Qed.

Lemma trim_start_clean s : starts_clean (trim_start s) = true.
Proof.
  induction s as [|c s IH]; simpl; [reflexivity|].
  destruct (is_space c) eqn:Hc; [exact IH|]. simpl. rewrite Hc. reflexivity.
Qed.

Lemma trim_start_id s : starts_clean s = true -> trim_start s = s.
Proof.
  destruct s as [|c s]; simpl; [reflexivity|].
  intros Hc. apply negb_true_iff in Hc. rewrite Hc. reflexivity.
Qed.

Lemma trim_end_cons c s :
  trim_end (String c s) =
    match trim_end s with
    | EmptyString => if is_space c then EmptyString else String c EmptyString
    | t => String c t
    end.
Proof. reflexivity. Qed.

Lemma trim_end_spaced s :
  forall b, spaced b s = true -> spaced b (trim_end s) = true.
Proof.
  induction s as [|c s IH]; intros b Hs; [reflexivity|].
  rewrite trim_end_cons. simpl in Hs.
  destruct (is_space c) eqn:Hc.
  - apply andb_prop in Hs as [Hp Hs]. specialize (IH _ Hs).
    destruct (trim_end s) as [|d t]; [reflexivity|].
    cbn [spaced]. rewrite Hc, Hp. exact IH.
  - specialize (IH _ Hs).
    destruct (trim_end s) as [|d t]; cbn [spaced]; rewrite Hc; [reflexivity|].
    exact IH.
Qed.

Lemma trim_end_unbroken s : unbroken s = true -> unbroken (trim_end s) = true.
Proof.
  induction s as [|c s IH]; intros Hs; [reflexivity|].
  rewrite trim_end_cons. simpl in Hs. apply andb_prop in Hs as [Hc Hs].
  specialize (IH Hs).
  destruct (trim_end s) as [|d t].
  - destruct (is_space c); [reflexivity|]. simpl. rewrite Hc. reflexivity.
  - cbn [unbroken] in *. rewrite Hc. exact IH.
Qed.

Lemma trim_end_clean s : starts_clean s = true -> starts_clean (trim_end s) = true.
Proof.
  destruct s as [|c s]; [reflexivity|]. rewrite trim_end_cons. simpl.
  intros Hc. destruct (trim_end s); [|exact Hc].
  apply negb_true_iff in Hc. rewrite Hc. simpl. rewrite Hc. reflexivity.
Qed.

Lemma trim_end_idem s : trim_end (trim_end s) = trim_end s.
Proof.
  induction s as [|c s IH]; [reflexivity|].
  rewrite trim_end_cons.
  destruct (trim_end s) as [|d t] eqn:Ht.
  - destruct (is_space c) eqn:Hc; [reflexivity|].
    rewrite trim_end_cons. simpl. rewrite Hc. reflexivity.
  - rewrite trim_end_cons, IH. reflexivity.
Qed.

Lemma trim_idem s : trim (trim s) = trim s.
Proof.
  unfold trim.
  rewrite (trim_start_id (trim_end (trim_start s))).
  - apply trim_end_idem.
  - apply trim_end_clean, trim_start_clean.
Qed.

Lemma collapse_from_id s :
  (spaced false s = true -> collapse_from Out s = s) /\
  (forall p, is_space p = true -> spaced true s = true ->
     collapse_from (One p) s = String p s).
Proof.
  induction s as [|c s [IH1 IH2]]; (split; [intros Hs | intros p Hp Hs]);
    simpl in *; try reflexivity.
  - destruct (is_space c) eqn:Hc.
    + apply IH2; [exact Hc | exact Hs].
    + rewrite (IH1 Hs). reflexivity.
  - destruct (is_space c) eqn:Hc; [discriminate|].
    rewrite (IH1 Hs). reflexivity.
Qed.

Lemma collapse_spaces_id s : spaced false s = true -> collapse_spaces s = s.
Proof. apply collapse_from_id. Qed.

(** What [minifyContents] returns: single white-space units only, none of
    them TAB, CR or LF. *)
Lemma minifyContents_shape s :
  spaced false (minifyContents s) = true /\
  unbroken (minifyContents s) = true.
Proof.
  unfold minifyContents, trim. split.
  - apply trim_end_spaced, spaced_weaken.
    apply (trim_start_spaced _ false), strip_breaks_spaced.
    apply collapse_from_spaced. exact I.
  - apply trim_end_unbroken, trim_start_unbroken, strip_breaks_unbroken.
Qed.

(** C8: minification is idempotent: minifying already minified contents
    gives the same contents, for every string. *)
Theorem minifyContents_idempotent (s : string) :
  minifyContents (minifyContents s) = minifyContents s.
Proof.
  destruct (minifyContents_shape s) as [Hsp Hun].
  unfold minifyContents at 1.
  rewrite (collapse_spaces_id _ Hsp), (strip_breaks_id _ Hun).
  unfold minifyContents. apply trim_idem.
Qed.

End Minify.

(** ** Running the plugin code *)

Lemma lookup_after_insert (l : list File) r f x :
  l !! r = Some f -> <[r := x]> l !! r = Some x.
Proof. intros Hl. apply list_lookup_insert_eq. eapply lookup_lt_Some, Hl. Qed.

(** Unfold the code one host call at a time; [Hf] tells what the reference
    of the module points to. *)
Ltac run_with Hf :=
  repeat first
    [ rewrite Hf
    | rewrite list_insert_insert_eq
    | rewrite (lookup_after_insert _ _ _ _ Hf)
    | progress unfold bind, ret, log, throw, getContext, getFile, updFile,
        addAlternativeContent, setContents, setSourceMap,
        addSubFile, getFileGroup, fatal, debug, emit, ensurePath, write
    | progress cbn [bind_run files fileGroups bundle trace with_files logged
                    with_fileGroups
                    info contents isLoaded sourceMap alternativeContent
                    subFiles groupHandler collection
                    with_contents with_loaded with_sourceMap
                    with_alternativeContent with_subFile] ].

(** Two runs that stop in the same way are equal when their contexts agree
    field by field. *)
Lemma context_eq c c' :
  files c = files c' -> fileGroups c = fileGroups c' ->
  bundle c = bundle c' -> trace c = trace c' -> c = c'.
Proof. destruct c, c'; cbn; congruence. Qed.

Lemma normal_eq {A} (a : A) c c' :
  files c = files c' -> fileGroups c = fileGroups c' ->
  bundle c = bundle c' -> trace c = trace c' -> Normal a c = Normal a c'.
Proof. intros. f_equal. apply context_eq; assumption. Qed.

Lemma abrupt_eq {A} e c c' :
  files c = files c' -> fileGroups c = fileGroups c' ->
  bundle c = bundle c' -> trace c = trace c' ->
  @Abrupt A e c = Abrupt e c'.
Proof. intros. f_equal. apply context_eq; assumption. Qed.

Lemma await_eq {A} f c c' (k : Context -> Run A) :
  files c = files c' -> fileGroups c = fileGroups c' ->
  bundle c = bundle c' -> trace c = trace c' ->
  Await f c k = Await f c' k.
Proof. intros. f_equal. apply context_eq; assumption. Qed.

(** The module behind the reference, after the writes made so far. *)
Ltac lookup_now Hf :=
  cbn [files logged with_files with_fileGroups];
  first [exact Hf | apply (lookup_after_insert _ _ _ _ Hf)].

Ltac context_field :=
  cbn [files fileGroups bundle trace logged with_files with_fileGroups];
  rewrite <- ?app_assoc; cbn [app]; rewrite ?app_nil_r;
  try reflexivity.

(** The events a run has added to the log. *)
Ltac since_now :=
  unfold events_since;
  cbn [files fileGroups bundle trace logged with_files with_fileGroups
       outcome_context];
  rewrite <- ?app_assoc; rewrite drop_app_length; cbn [app].

Ltac same_context :=
  lazymatch goal with
  | |- Normal _ _ = Normal _ _ => apply normal_eq; context_field
  | |- Abrupt _ _ = Abrupt _ _ => apply abrupt_eq; context_field
  | |- Await _ _ _ = Await _ _ _ => apply await_eq; context_field
  | |- _ => apply context_eq; context_field
  end.

Section Runs.

Context (H : Host).

Lemma emitHMR_run c file f :
  files c !! file = Some f ->
  emitHMR H file c =
    Normal tt {| files := files c; fileGroups := fileGroups c;
                 bundle := bundle c;
                 trace := trace c ++ hmr_events H c f |}.
Proof.
  intros Hf. unfold emitHMR, hmr_events, change_event. run_with Hf.
  destruct (emitRequired H (bundle c)); run_with Hf; same_context.
Qed.

Lemma loadContents_run c file f :
  files c !! file = Some f ->
  loadContents H file c =
    Normal tt {| files := <[file := with_loaded (loaded_contents H f) f]> (files c);
                 fileGroups := fileGroups c;
                 bundle := bundle c;
                 trace := trace c ++ load_events f |}.
Proof.
  intros Hf. unfold loadContents, load_events, loaded_contents. run_with Hf.
  destruct (isLoaded f) eqn:Hl; run_with Hf; same_context.
  symmetry. apply list_insert_id.
  destruct f; cbn in *; subst; exact Hf.
Qed.

Lemma inject_run c file f o alternative :
  files c !! file = Some f ->
  let result := inject_result o (fuseBoxPath (info f)) in
  inject file o alternative c =
    Normal tt
      (if alternative then
         {| files := <[file := with_alternativeContent result f]> (files c);
            fileGroups := fileGroups c; bundle := bundle c;
            trace := trace c ++ [AddAlternativeContent file result] |}
       else
         {| files := <[file := with_contents result f]> (files c);
            fileGroups := fileGroups c; bundle := bundle c;
            trace := trace c ++ [SetContents file result] |}).
Proof.
  intros Hf result. unfold inject. run_with Hf.
  destruct alternative; run_with Hf; same_context.
Qed.

(** Continue with the result of a step that completes. *)
Lemma bind_run_normal {A B} (r : Run A) (k : A -> M B) a c :
  r = Normal a c -> bind_run r k = k a c.
Proof. intros ->. reflexivity. Qed.

(** The inline path of [transform]. *)
Lemma transform_inline this c file f :
  files c !! file = Some f ->
  hasSubFiles f = false ->
  opt_truthy (group (options this)) = false ->
  outFile (options this) = OutUndefined ->
  let body := final_contents H this f in
  let call := value_call (fuseBoxPath (info f)) (Js.JSON_stringify body) in
  let f' := with_alternativeContent call
              (with_sourceMap None (prepared H this f)) in
  transform H this file c =
    Normal tt {| files := <[file := f']> (files c);
                 fileGroups := fileGroups c;
                 bundle := bundle c;
                 trace := trace c ++ load_events f ++
                   [SetContents file body; SetSourceMap file None;
                    AddAlternativeContent file call] ++ hmr_events H c f' |}.
Proof.
  intros Hf Hsub Hgrp Hout body call f'.
  unfold transform. rewrite Hgrp, Hout. run_with Hf. rewrite Hsub.
  rewrite (bind_run_normal _ _ _ _ (loadContents_run _ _ _ Hf)).
  run_with Hf.
  erewrite emitHMR_run by (cbn [files]; apply (lookup_after_insert _ _ _ _ Hf)).
  subst f' call body. unfold prepared. same_context.
Qed.

(** A module that has sub files is left alone. *)
Lemma transform_skip this c file f :
  files c !! file = Some f ->
  hasSubFiles f = true ->
  transform H this file c = Normal tt c.
Proof.
  intros Hf Hsub. unfold transform. run_with Hf. rewrite Hsub. reflexivity.
Qed.

(** The configuration error of [transform]. *)
Lemma transform_fatal this c file f s :
  files c !! file = Some f ->
  hasSubFiles f = false ->
  opt_truthy (group (options this)) = false ->
  outFile (options this) = OutString s ->
  transform H this file c =
    Abrupt fatal_message
      {| files := <[file := prepared H this f]> (files c);
         fileGroups := fileGroups c;
         bundle := bundle c;
         trace := trace c ++ load_events f ++
           [SetContents file (final_contents H this f); Fatal fatal_message] |}.
Proof.
  intros Hf Hsub Hgrp Hout.
  unfold transform. rewrite Hgrp, Hout. run_with Hf. rewrite Hsub.
  rewrite (bind_run_normal _ _ _ _ (loadContents_run _ _ _ Hf)).
  run_with Hf. unfold prepared. same_context.
Qed.

(** The group path of [transform], when the group exists already. *)
Lemma transform_grouped_existing this c file f name g gf :
  files c !! file = Some f ->
  hasSubFiles f = false ->
  group (options this) = Some name ->
  Js.truthy name = true ->
  fileGroups c !! name = Some g ->
  files c !! g = Some gf ->
  g <> file ->
  let f1 := with_sourceMap None (prepared H this f) in
  transform H this file c =
    Normal tt
      {| files := <[file := with_alternativeContent (require_marker name) f1]>
                    (<[g := with_subFile file gf]> (files c));
         fileGroups := fileGroups c;
         bundle := bundle c;
         trace := trace c ++ load_events f ++
           [SetContents file (final_contents H this f);
            SetSourceMap file None;
            AddSubFile g file;
            Debug ("  grouping -> " +:+ name);
            AddAlternativeContent file (require_marker name)] |}.
Proof.
  intros Hf Hsub Hgrp Hname Hreg Hg Hne f1.
  unfold transform. rewrite Hgrp. cbn [opt_truthy default]. unfold id.
  rewrite Hname.
  run_with Hf. rewrite Hsub.
  rewrite (bind_run_normal _ _ _ _ (loadContents_run _ _ _ Hf)).
  run_with Hf. rewrite Hreg. run_with Hf.
  rewrite (list_lookup_insert_ne _ file g) by congruence.
  rewrite Hg. run_with Hf.
  rewrite (list_lookup_insert_ne _ g file) by congruence.
  run_with Hf.
  subst f1. unfold prepared. same_context.
  rewrite (list_insert_insert_ne _ g file) by congruence.
  rewrite list_insert_insert_eq. reflexivity.
Qed.

(** The group path of [transform], on the first use of the name. *)
Lemma transform_grouped_new this c file f name :
  files c !! file = Some f ->
  hasSubFiles f = false ->
  group (options this) = Some name ->
  Js.truthy name = true ->
  fileGroups c !! name = None ->
  let f1 := with_sourceMap None (prepared H this f) in
  let g := length (files c) in
  let gf := newGroupFile name (collection f) this in
  transform H this file c =
    Normal tt
      {| files := <[file := with_alternativeContent (require_marker name) f1]>
                    (files c) ++ [with_subFile file gf];
         fileGroups := <[name := g]> (fileGroups c);
         bundle := bundle c;
         trace := trace c ++ load_events f ++
           [SetContents file (final_contents H this f);
            SetSourceMap file None;
            CreateFileGroup name g;
            AddSubFile g file;
            Debug ("  grouping -> " +:+ name);
            AddAlternativeContent file (require_marker name)] |}.
Proof.
  intros Hf Hsub Hgrp Hname Hreg f1 g gf.
  assert (Hlt : file < length (files c)) by (eapply lookup_lt_Some, Hf).
  unfold transform. rewrite Hgrp. cbn [opt_truthy default]. unfold id.
  rewrite Hname.
  run_with Hf. rewrite Hsub.
  rewrite (bind_run_normal _ _ _ _ (loadContents_run _ _ _ Hf)).
  run_with Hf. rewrite Hreg. unfold createFileGroup. run_with Hf.
  rewrite length_insert.
  rewrite (list_lookup_middle _ [] _ (length (files c)))
    by (rewrite length_insert; reflexivity).
  run_with Hf.
  rewrite (insert_app_r_alt _ _ (length (files c)))
    by (rewrite length_insert; lia).
  rewrite length_insert, Nat.sub_diag. cbn [insert list_insert].
  rewrite lookup_app_l by (rewrite length_insert; exact Hlt).
  run_with Hf.
  rewrite insert_app_l by (rewrite length_insert; exact Hlt).
  run_with Hf.
  subst f1 g gf. unfold prepared. same_context.
Qed.

(** The direct-output path of [transform]: the synchronous part, up to the
    promise of the content write, and what runs when it completes. *)
Lemma transform_outFile this c file f fn :
  files c !! file = Some f ->
  hasSubFiles f = false ->
  opt_truthy (group (options this)) = false ->
  outFile (options this) = OutFunction fn ->
  let result := inject_result (options this) (fuseBoxPath (info f)) in
  let f' := with_alternativeContent result (prepared H this f) in
  let c1 := {| files := <[file := f']> (files c);
               fileGroups := fileGroups c;
               bundle := bundle c;
               trace := trace c ++ load_events f ++
                 [SetContents file (final_contents H this f);
                  EnsureUserPath (fn (fuseBoxPath (info f)));
                  AddAlternativeContent file result;
                  WriteBegin (module_outFile H fn f) (final_contents H this f)] |} in
  exists k,
    transform H this file c = Await (module_outFile H fn f) c1 k /\
    forall c', files c' = files c1 ->
      k c' = match sourceMap f with
             | Some m =>
                 if Js.truthy m then
                   Await (module_mapFile H fn f)
                     (logged (WriteBegin (module_mapFile H fn f) m) c')
                     (fun c'' => Normal tt c'')
                 else Normal tt c'
             | None => Normal tt c'
             end.
Proof.
  intros Hf Hsub Hgrp Hout result f' c1.
  unfold transform. rewrite Hgrp, Hout. run_with Hf. rewrite Hsub.
  rewrite (bind_run_normal _ _ _ _ (loadContents_run _ _ _ Hf)).
  run_with Hf.
  lazymatch goal with
  | |- context [inject file ?o ?alt ?ctx] =>
      rewrite (bind_run_normal _ _ _ _
                 (inject_run ctx file (prepared H this f) o alt
                    ltac:(lookup_now Hf)))
  end.
  run_with Hf. eexists. split.
  - subst c1 f' result. unfold prepared, module_outFile. same_context.
  - intros c' Hc'. cbn beta. rewrite Hc'. subst c1. cbn [files].
    rewrite (lookup_after_insert _ _ _ _ Hf). cbn [bind_run].
    subst f'. cbn [sourceMap with_alternativeContent prepared with_contents
                   with_loaded].
    destruct (sourceMap f) as [m|]; [|reflexivity].
    destruct (Js.truthy m); reflexivity.
Qed.

(** The members of a group as the finalizer reads them. *)
Lemma concat_members_run (l : list File) refs members :
  Forall2 (fun r f => l !! r = Some f) refs members ->
  forall acc c, files c = l ->
    foldM refs (concat_member H) acc c =
      Normal (acc ++ map (member_entry H) members)%list
        {| files := files c; fileGroups := fileGroups c; bundle := bundle c;
           trace := trace c ++ map member_debug members |}.
Proof.
  induction 1 as [|r f refs members Hr _ IH]; intros acc c Hc.
  - cbn [foldM map]. unfold ret. rewrite !app_nil_r. destruct c; reflexivity.
  - cbn [foldM]. unfold bind at 1. unfold concat_member at 1.
    subst l. run_with Hr.
    rewrite IH by reflexivity. unfold concat_add, member_entry.
    cbn [map]. rewrite <- (app_assoc acc). cbn [app]. same_context.
Qed.

(** The inline branch of [transformGroup]. *)
Lemma transformGroup_inline this c grp g handler members :
  files c !! grp = Some g ->
  Forall2 (fun r f => files c !! r = Some f) (subFiles g) members ->
  groupHandler g = Some handler ->
  outFile_truthy (outFile (options handler)) = false ->
  let gpath := fuseBoxPath (info g) in
  let cssContents := concat_content (map (member_entry H) members) in
  let call := group_value_call gpath (Js.JSON_stringify cssContents) in
  let g' := with_alternativeContent call g in
  transformGroup H this grp c =
    Normal tt
      {| files := <[grp := g']> (files c);
         fileGroups := fileGroups c;
         bundle := bundle c;
         trace := trace c ++ [group_start g] ++ map member_debug members ++
           [Debug ("Inlining " +:+ gpath); AddAlternativeContent grp call] ++
           hmr_events H c g' |}.
Proof.
  intros Hg Hm Hh Hout gpath css call g'.
  unfold transformGroup. run_with Hg.
  rewrite (concat_members_run _ _ _ Hm) by reflexivity.
  rewrite Hh, Hout. run_with Hg.
  erewrite emitHMR_run by (cbn [files]; apply (lookup_after_insert _ _ _ _ Hg)).
  subst g' call css gpath. unfold group_start. cbn [app]. same_context.
Qed.

(** The output-path branch of [transformGroup]: the synchronous part, up to
    the promise of the content write, and what runs when it completes. *)
Lemma transformGroup_outFile this c grp g handler members userPath :
  files c !! grp = Some g ->
  Forall2 (fun r f => files c !! r = Some f) (subFiles g) members ->
  groupHandler g = Some handler ->
  outFile (options handler) = OutString userPath ->
  Js.truthy userPath = true ->
  let out := group_outFile H userPath in
  let concat := group_concat H members userPath in
  let result := inject_result (options handler) (fuseBoxPath (info g)) in
  let c1 := {| files := files c;
               fileGroups := fileGroups c;
               bundle := bundle c;
               trace := trace c ++ [group_start g] ++
                 map member_debug members ++
                 [EnsureUserPath userPath; Debug ("Writing " +:+ out);
                  WriteBegin out (concat_content concat)] |} in
  exists k,
    transformGroup H this grp c = Await out c1 k /\
    forall c', files c' = files c ->
      exists k',
        k c' =
          Await (group_mapFile H userPath)
            {| files := <[grp := with_contents result g]> (files c');
               fileGroups := fileGroups c';
               bundle := bundle c';
               trace := trace c' ++
                 [SetContents grp result;
                  EnsureUserPath (group_mapPath H userPath);
                  WriteBegin (group_mapFile H userPath)
                    (concat_sourceMap H concat)] |}
            k' /\
        forall c'', k' c'' = Normal tt c''.
Proof.
  intros Hg Hm Hh Hout Htruthy out concat result c1.
  unfold transformGroup. run_with Hg.
  rewrite (concat_members_run _ _ _ Hm) by reflexivity.
  rewrite Hh, Hout. cbn [outFile_truthy]. rewrite Htruthy. run_with Hg.
  eexists. split.
  - subst c1 out concat. unfold group_start, group_concat, group_mapName,
      group_outFile. cbn [app]. same_context.
  - intros c' Hc'. cbn beta.
    assert (Hg' : files c' !! grp = Some g) by (rewrite Hc'; exact Hg).
    rewrite (bind_run_normal _ _ _ _ (inject_run _ _ _ _ false Hg')).
    run_with Hg'. eexists. split; [|reflexivity].
    subst result concat. unfold group_mapFile, group_mapPath, group_concat,
      group_mapName, group_outFile. same_context.
Qed.

(** *** Once the file system has answered *)

Lemma settle_await {A} f c (k : Context -> Run A) :
  settle H (Await f c k) =
    if fs_accepts H f then settle H (k (logged (WriteEnd f) c))
    else Rejected "write" (logged (WriteError f) c).
Proof. reflexivity. Qed.

Lemma events_since_app c es fs gs b :
  events_since c {| files := fs; fileGroups := gs; bundle := b;
                    trace := trace c ++ es |} = es.
Proof. unfold events_since. cbn [trace]. apply drop_app_length. Qed.

Lemma events_since_trace c c' es :
  trace c' = trace c ++ es -> events_since c c' = es.
Proof. unfold events_since. intros ->. apply drop_app_length. Qed.



Lemma no_emit_load_events f : existsb is_emit (load_events f) = false.
Proof. unfold load_events. destruct (isLoaded f); reflexivity. Qed.

Lemma no_write_load_events f : existsb is_write (load_events f) = false.
Proof. unfold load_events. destruct (isLoaded f); reflexivity. Qed.

Lemma occurs_app_r e l1 l2 : occurs e l2 = true -> occurs e (l1 ++ l2) = true.
Proof.
  intros He. induction l1 as [|x l1 IH]; [exact He|].
  cbn [app occurs]. rewrite IH. apply orb_true_r.
Qed.

Lemma occurs_here e l : occurs e (e :: l) = true.
Proof. cbn [occurs]. rewrite bool_decide_eq_true_2; reflexivity. Qed.

Lemma precedes_split e1 e2 l1 l2 l3 :
  precedes e1 e2 (l1 ++ e1 :: l2 ++ e2 :: l3) = true.
Proof.
  induction l1 as [|x l1 IH]; cbn [app precedes].
  - rewrite bool_decide_eq_true_2 by reflexivity.
    apply occurs_app_r, occurs_here.
  - destruct (bool_decide (x = e1)); [|exact IH].
    apply occurs_app_r. cbn [occurs].
    rewrite (occurs_app_r e2 l2 (e2 :: l3) (occurs_here _ _)).
    apply orb_true_r.
Qed.

Lemma precedes_in e1 e2 tr l1 l2 l3 :
  tr = l1 ++ e1 :: l2 ++ e2 :: l3 -> precedes e1 e2 tr = true.
Proof. intros ->. apply precedes_split. Qed.

(** The finalisation of a group written to a file, under every answer of
    the file system. *)
Lemma transformGroup_outFile_settled this c grp g handler members userPath :
  files c !! grp = Some g ->
  Forall2 (fun r f => files c !! r = Some f) (subFiles g) members ->
  groupHandler g = Some handler ->
  outFile (options handler) = OutString userPath ->
  Js.truthy userPath = true ->
  let out := group_outFile H userPath in
  let mapFile := group_mapFile H userPath in
  let concat := group_concat H members userPath in
  let result := inject_result (options handler) (fuseBoxPath (info g)) in
  let done := outcome_context (settle H (transformGroup H this grp c)) in
  events_since c done =
    ([group_start g] ++ map member_debug members ++
     [EnsureUserPath userPath; Debug ("Writing " +:+ out);
      WriteBegin out (concat_content concat)] ++
     (if fs_accepts H out then
        [WriteEnd out;
         SetContents grp result;
         EnsureUserPath (group_mapPath H userPath);
         WriteBegin mapFile (concat_sourceMap H concat);
         if fs_accepts H mapFile then WriteEnd mapFile else WriteError mapFile]
      else [WriteError out]))%list /\
  files done =
    if fs_accepts H out then <[grp := with_contents result g]> (files c)
    else files c.
Proof.
  intros Hg Hm Hh Hout Htruthy out mapFile concat result done.
  destruct (transformGroup_outFile this c grp g handler members userPath
              Hg Hm Hh Hout Htruthy) as (k & Hrun & Hk).
  subst done. rewrite Hrun, settle_await. fold out.
  destruct (fs_accepts H out).
  - edestruct Hk as (k' & Hk1 & Hk2); [|rewrite Hk1]; [reflexivity|].
    rewrite settle_await, Hk2. fold mapFile.
    destruct (fs_accepts H mapFile); cbn [settle outcome_context];
      (split; [apply events_since_trace; context_field | reflexivity]).
  - cbn [outcome_context].
    split; [apply events_since_trace; context_field | reflexivity].
Qed.

(** The module written to a file, under every answer of the file system:
    the replacement is set before the first write starts. *)
Lemma transform_outFile_settled this c file f fn :
  files c !! file = Some f ->
  hasSubFiles f = false ->
  opt_truthy (group (options this)) = false ->
  outFile (options this) = OutFunction fn ->
  let result := inject_result (options this) (fuseBoxPath (info f)) in
  let done := outcome_context (settle H (transform H this file c)) in
  files done =
    <[file := with_alternativeContent result (prepared H this f)]> (files c).
Proof.
  intros Hf Hsub Hgrp Hout result done.
  destruct (transform_outFile this c file f fn Hf Hsub Hgrp Hout)
    as (k & Hrun & Hk).
  subst done. rewrite Hrun, settle_await.
  destruct (fs_accepts H (module_outFile H fn f)); [|reflexivity].
  rewrite Hk by reflexivity.
  destruct (sourceMap f) as [m|]; [|reflexivity].
  destruct (Js.truthy m); [|reflexivity].
  rewrite settle_await.
  destruct (fs_accepts H (module_mapFile H fn f)); reflexivity.
Qed.

(** ** Group finalisation and the change notifier *)


(** C2, as the code has it: for a group with an output path, the
    concatenated content is written first; only when that write has
    completed is the injection triggered, and the source map is written
    after the injection. When the content write fails, neither happens. *)
Theorem transformGroup_write_order this c grp g handler members userPath :
  files c !! grp = Some g ->
  Forall2 (fun r f => files c !! r = Some f) (subFiles g) members ->
  groupHandler g = Some handler ->
  outFile (options handler) = OutString userPath ->
  Js.truthy userPath = true ->
  let out := ensureUserPath H userPath in
  let mapName := path_basename H out +:+ ".map" in
  let mapFile := ensureUserPath H (path_join H (path_dirname H out) mapName) in
  let parts :=
    (map (member_entry H) members ++
     [(None, "/*# sourceMappingURL=" +:+ mapName +:+ " */", None)])%list in
  let injection :=
    SetContents grp
      (inject_result (options handler) (fuseBoxPath (info g))) in
  events_since c (outcome_context (settle H (transformGroup H this grp c))) =
    ([group_start g] ++ map member_debug members ++
     [EnsureUserPath userPath; Debug ("Writing " +:+ out);
      WriteBegin out (concat_content parts)] ++
     (if fs_accepts H out then
        [WriteEnd out;
         injection;
         EnsureUserPath (path_join H (path_dirname H out) mapName);
         WriteBegin mapFile (mergeSourceMaps H parts);
         if fs_accepts H mapFile then WriteEnd mapFile else WriteError mapFile]
      else [WriteError out]))%list.
Proof.
  intros Hg Hm Hh Hout Htruthy out mapName mapFile parts injection.
  exact (proj1 (transformGroup_outFile_settled this c grp g handler members
                  userPath Hg Hm Hh Hout Htruthy)).
Qed.

(** C3, as the code has it: [emitHMR] emits nothing when the host's last
    changed file is not a stylesheet; it emits exactly one event, of type
    [js], with the module's alternative content and logical path, when the
    last changed file is a stylesheet and also when the host reports no last
    changed file. It never fails. *)
Theorem emitHMR_gating c file f :
  files c !! file = Some f ->
  let event := {| ev_type := "js";
                  ev_content := alternativeContent f;
                  ev_path := fuseBoxPath (info f) |} in
  emitHMR H file c =
    Normal tt
      match lastChanged (bundle c) with
      | Some p => if isStylesheetExtension H p then logged (Emit event) c else c
      | None => logged (Emit event) c
      end.
Proof.
  intros Hf event. rewrite (emitHMR_run c file f Hf).
  unfold hmr_events, emitRequired, change_event, logged. subst event.
  destruct (lastChanged (bundle c)) as [p|].
  - destruct (isStylesheetExtension H p); [reflexivity|].
    rewrite app_nil_r. destruct c; reflexivity.
  - reflexivity.
Qed.

(** ** The replacement of a module *)

(** C4, as the code has it: a module with no group and no output path gets
    as replacement the call [__fsbx_css("<logicalPath>", <json>)], with no
    semicolon after it, where [<json>] is the JSON string of the (possibly
    minified) contents. *)
Theorem transform_inline_value_call this c file f :
  files c !! file = Some f ->
  hasSubFiles f = false ->
  opt_truthy (group (options this)) = false ->
  outFile (options this) = OutUndefined ->
  exists c',
    transform H this file c = Normal tt c' /\
    alternativeContent <$> files c' !! file =
      Some (Some ("__fsbx_css(" +:+ Js.dq +:+ fuseBoxPath (info f) +:+ Js.dq
                  +:+ ", " +:+ Js.JSON_stringify (final_contents H this f)
                  +:+ ")")).
Proof.
  intros Hf Hsub Hgrp Hout.
  eexists. split; [exact (transform_inline this c file f Hf Hsub Hgrp Hout)|].
  cbn [files]. rewrite (lookup_after_insert _ _ _ _ Hf). reflexivity.
Qed.

(** C5, as the code has it: with [inject: false], what [inject] emits is
    the empty string. A module written through an [outFile] function gets the
    empty string as its replacement, and a group written to an [outFile]
    gets the empty string as its contents once the content write has
    completed. (The inline paths do not look at [inject].) *)
Theorem inject_false_emits_nothing o :
  injectOpt o = InjectBool false ->
  (forall path, inject_result o path = EmptyString) /\
  (forall this c file f fn,
     options this = o ->
     files c !! file = Some f ->
     hasSubFiles f = false ->
     opt_truthy (group o) = false ->
     outFile o = OutFunction fn ->
     alternativeContent <$>
       files (outcome_context (settle H (transform H this file c))) !! file =
     Some (Some EmptyString)) /\
  (forall this handler c grp g members userPath,
     options handler = o ->
     files c !! grp = Some g ->
     Forall2 (fun r f => files c !! r = Some f) (subFiles g) members ->
     groupHandler g = Some handler ->
     outFile o = OutString userPath ->
     Js.truthy userPath = true ->
     fs_accepts H (ensureUserPath H userPath) = true ->
     contents <$>
       files (outcome_context (settle H (transformGroup H this grp c))) !! grp =
     Some EmptyString).
Proof.
  intros Hinj.
  assert (Hres : forall path, inject_result o path = EmptyString)
    by (intros path; unfold inject_result; rewrite Hinj; reflexivity).
  split; [exact Hres|]. split.
  - intros this c file f fn <- Hf Hsub Hgrp Hout.
    rewrite (transform_outFile_settled this c file f fn Hf Hsub Hgrp Hout).
    rewrite (lookup_after_insert _ _ _ _ Hf), Hres. reflexivity.
  - intros this handler c grp g members userPath <- Hg Hm Hh Hout Htruthy Hfs.
    destruct (transformGroup_outFile_settled this c grp g handler members
                userPath Hg Hm Hh Hout Htruthy) as [_ ->].
    unfold group_outFile. rewrite Hfs.
    rewrite (lookup_after_insert _ _ _ _ Hg), Hres. reflexivity.
Qed.

(** C6, as the code has it: a module with an [outFile] function and no group
    gets as replacement the reference call [__fsbx_css("<path>");], where
    [<path>] is the logical path or what a custom [inject] function makes of
    it, unless [inject] is [false], when the replacement is empty. The
    contents of the module have no part in it. *)
Theorem transform_outFile_reference_call this c file f fn :
  files c !! file = Some f ->
  hasSubFiles f = false ->
  opt_truthy (group (options this)) = false ->
  outFile (options this) = OutFunction fn ->
  alternativeContent <$>
    files (outcome_context (settle H (transform H this file c))) !! file =
  Some (Some
    match injectOpt (options this) with
    | InjectBool false => EmptyString
    | InjectFunction resolve =>
        "__fsbx_css(" +:+ Js.dq +:+ resolve (fuseBoxPath (info f)) +:+ Js.dq
        +:+ ");"
    | InjectUndefined | InjectBool true =>
        "__fsbx_css(" +:+ Js.dq +:+ fuseBoxPath (info f) +:+ Js.dq +:+ ");"
    end).
Proof.
  intros Hf Hsub Hgrp Hout.
  rewrite (transform_outFile_settled this c file f fn Hf Hsub Hgrp Hout).
  rewrite (lookup_after_insert _ _ _ _ Hf).
  cbn [fmap option_fmap option_map alternativeContent with_alternativeContent].
  unfold inject_result, inject_resolvedPath, reference_call.
  destruct (injectOpt (options this)) as [|[|]|resolve]; reflexivity.
Qed.

(** C7, as the code has it: when [outFile] is defined but is not a function
    and the module is not grouped, the module is loaded (read, when the host
    has not read it yet) and its contents are assigned; then the fatal
    configuration error is reported and the transform of the module stops
    there: nothing was written before it, nothing is written or pending
    after it, and the module gets no replacement. *)
Theorem transform_outFile_not_function this c file f s :
  files c !! file = Some f ->
  hasSubFiles f = false ->
  opt_truthy (group (options this)) = false ->
  outFile (options this) = OutString s ->
  exists c',
    transform H this file c = Abrupt fatal_message c' /\
    events_since c c' =
      load_events f ++
      [SetContents file (final_contents H this f); Fatal fatal_message] /\
    existsb is_write (events_since c c') = false /\
    alternativeContent <$> files c' !! file = Some (alternativeContent f).
Proof.
  intros Hf Hsub Hgrp Hout.
  eexists. split; [exact (transform_fatal this c file f s Hf Hsub Hgrp Hout)|].
  assert (Hev : forall b tr fs gs,
            events_since c {| files := fs; fileGroups := gs; bundle := b;
                              trace := trace c ++ tr |} = tr)
    by (intros; apply events_since_app).
  rewrite Hev. split; [reflexivity|]. split.
  - rewrite existsb_app, no_write_load_events. reflexivity.
  - cbn [files]. rewrite (lookup_after_insert _ _ _ _ Hf). reflexivity.
Qed.

(** ** The group path *)

(** C9: a module transformed with a group name configured is appended to
    the group of that name: the group registered under the name is reused
    when there is one (the table of groups and the store of files keep their
    size), and is created, bound to this plugin, when there is none. The
    replacement of the module is the marker [require("~/<name>")], and
    [transform] returns at once: no write is started or pending, nothing is
    injected and no change is notified. *)
Theorem transform_group_path this c file f name :
  files c !! file = Some f ->
  hasSubFiles f = false ->
  group (options this) = Some name ->
  Js.truthy name = true ->
  match fileGroups c !! name with
  | Some g0 => g0 <> file /\ is_Some (files c !! g0)
  | None => True
  end ->
  exists c' g,
    transform H this file c = Normal tt c' /\
    fileGroups c' !! name = Some g /\
    match fileGroups c !! name with
    | Some g0 =>
        g = g0 /\ fileGroups c' = fileGroups c /\
        length (files c') = length (files c) /\
        subFiles <$> files c' !! g =
          (fun gf => subFiles gf ++ [file]) <$> files c !! g0
    | None =>
        g = length (files c) /\
        fileGroups c' = <[name := g]> (fileGroups c) /\
        length (files c') = S (length (files c)) /\
        files c' !! g =
          Some (with_subFile file (newGroupFile name (collection f) this))
    end /\
    alternativeContent <$> files c' !! file =
      Some (Some ("require(" +:+ Js.dq +:+ "~/" +:+ name +:+ Js.dq +:+ ")")) /\
    events_since c c' =
      load_events f ++
      [SetContents file (final_contents H this f); SetSourceMap file None] ++
      match fileGroups c !! name with
      | Some _ => []
      | None => [CreateFileGroup name g]
      end ++
      [AddSubFile g file;
       Debug ("  grouping -> " +:+ name);
       AddAlternativeContent file
         ("require(" +:+ Js.dq +:+ "~/" +:+ name +:+ Js.dq +:+ ")")] /\
    existsb is_write (events_since c c') = false /\
    existsb is_emit (events_since c c') = false.
Proof.
  intros Hf Hsub Hgrp Hname Hreg.
  assert (Hlt : file < length (files c)) by (eapply lookup_lt_Some, Hf).
  destruct (fileGroups c !! name) as [g0|] eqn:Hlook.
  - destruct Hreg as [Hne [gf Hg]].
    eexists _, g0. split;
      [exact (transform_grouped_existing this c file f name g0 gf
                Hf Hsub Hgrp Hname Hlook Hg Hne)|].
    cbn [files fileGroups]. split; [exact Hlook|]. split; [|split; [|split]].
    + split; [reflexivity|]. split; [reflexivity|].
      split; [rewrite !length_insert; reflexivity|].
      rewrite list_lookup_insert_ne by congruence.
      rewrite (lookup_after_insert _ _ _ _ Hg), Hg. reflexivity.
    + rewrite list_lookup_insert_eq by (rewrite length_insert; exact Hlt).
      reflexivity.
    + since_now. reflexivity.
    + since_now. rewrite !existsb_app, no_write_load_events, no_emit_load_events.
      split; reflexivity.
  - eexists _, (length (files c)). split;
      [exact (transform_grouped_new this c file f name
                Hf Hsub Hgrp Hname Hlook)|].
    cbn [files fileGroups]. split; [apply lookup_insert_eq|].
    split; [|split; [|split]].
    + split; [reflexivity|]. split; [reflexivity|].
      split; [rewrite length_app, length_insert; cbn; lia|].
      apply list_lookup_middle. rewrite length_insert. reflexivity.
    + rewrite lookup_app_l by (rewrite length_insert; exact Hlt).
      rewrite (lookup_after_insert _ _ _ _ Hf). reflexivity.
    + since_now. reflexivity.
    + since_now. rewrite !existsb_app, no_write_load_events, no_emit_load_events.
      split; reflexivity.
Qed.

(** C10: on the group path the source map of the module is set to
    [undefined] before the module is appended to the group, whether the
    plugin minifies or not, and it is still undefined when [transform]
    returns. *)
Theorem transform_group_drops_sourceMap this c file f name :
  files c !! file = Some f ->
  hasSubFiles f = false ->
  group (options this) = Some name ->
  Js.truthy name = true ->
  match fileGroups c !! name with
  | Some g0 => g0 <> file /\ is_Some (files c !! g0)
  | None => True
  end ->
  exists c' g,
    transform H this file c = Normal tt c' /\
    fileGroups c' !! name = Some g /\
    sourceMap <$> files c' !! file = Some None /\
    precedes (SetSourceMap file None) (AddSubFile g file)
      (events_since c c') = true.
Proof.
  intros Hf Hsub Hgrp Hname Hreg.
  assert (Hlt : file < length (files c)) by (eapply lookup_lt_Some, Hf).
  destruct (fileGroups c !! name) as [g0|] eqn:Hlook.
  - destruct Hreg as [Hne [gf Hg]].
    eexists _, g0. split;
      [exact (transform_grouped_existing this c file f name g0 gf
                Hf Hsub Hgrp Hname Hlook Hg Hne)|].
    cbn [files fileGroups]. split; [exact Hlook|]. split.
    + rewrite list_lookup_insert_eq by (rewrite length_insert; exact Hlt).
      reflexivity.
    + since_now.
      apply (precedes_in _ _ _
               (load_events f ++ [SetContents file (final_contents H this f)])
               [] [Debug ("  grouping -> " +:+ name);
                   AddAlternativeContent file (require_marker name)]).
      rewrite <- app_assoc. reflexivity.
  - eexists _, (length (files c)). split;
      [exact (transform_grouped_new this c file f name
                Hf Hsub Hgrp Hname Hlook)|].
    cbn [files fileGroups]. split; [apply lookup_insert_eq|]. split.
    + rewrite lookup_app_l by (rewrite length_insert; exact Hlt).
      rewrite (lookup_after_insert _ _ _ _ Hf). reflexivity.
    + since_now.
      apply (precedes_in _ _ _
               (load_events f ++ [SetContents file (final_contents H this f)])
               [CreateFileGroup name (length (files c))]
               [Debug ("  grouping -> " +:+ name);
                AddAlternativeContent file (require_marker name)]).
      rewrite <- app_assoc. reflexivity.
Qed.

End Runs.

(** ** The scenarios of the sample build *)

Import Sample.

(** A fact of the sample build, by running the code. *)
Ltac run_sample := vm_compute; reflexivity.

Ltac members_now := repeat (constructor; [run_sample|]); constructor.

(** An equation of the sample build: what the theorem says there, and the
    value of what it says. *)
Ltac by_instance W := etransitivity; [exact W | run_sample].



(** C2, the order of the spec: in the finalisation of the group
    [bundle.css] with [outFile: "dist/bundle.css"], the injection is
    triggered before the write of the source map begins, not after it. *)
Lemma transformGroup_injects_before_map :
  let done := after (transformGroup host bundle_plugin 2
                       (both_grouped bundle_plugin)) in
  let injection :=
    SetContents 2 ("__fsbx_css(" +:+ Js.dq +:+ "bundle.css" +:+ Js.dq +:+ ");") in
  let mapWrite := WriteBegin "dist/bundle.css.map" "{}" in
  precedes injection mapWrite (trace done) = true /\
  precedes mapWrite injection (trace done) = false.
Proof. vm_compute. split; reflexivity. Qed.

Lemma transformGroup_write_order_witness :
  events_since (both_grouped bundle_plugin)
    (after (transformGroup host bundle_plugin 2 (both_grouped bundle_plugin))) =
  [Debug ("Start group transformation on " +:+ Js.dq +:+ "bundle.css" +:+ Js.dq);
   Debug "  -> Concat a.css";
   Debug "  -> Concat b.css";
   EnsureUserPath "dist/bundle.css";
   Debug "Writing dist/bundle.css";
   WriteBegin "dist/bundle.css"
     (".a{color:red}" +:+ nl +:+ ".b{color:blue}" +:+ nl +:+
      "/*# sourceMappingURL=bundle.css.map */");
   WriteEnd "dist/bundle.css";
   SetContents 2 ("__fsbx_css(" +:+ Js.dq +:+ "bundle.css" +:+ Js.dq +:+ ");");
   EnsureUserPath "dist/bundle.css.map";
   WriteBegin "dist/bundle.css.map" "{}";
   WriteEnd "dist/bundle.css.map"].
Proof.
  by_instance
    (transformGroup_write_order host bundle_plugin
       (both_grouped bundle_plugin) 2
       (file_at (both_grouped bundle_plugin) 2) bundle_plugin
       [file_at (both_grouped bundle_plugin) 0;
        file_at (both_grouped bundle_plugin) 1]
       "dist/bundle.css"
       ltac:(run_sample) ltac:(members_now) ltac:(run_sample)
       ltac:(run_sample) ltac:(run_sample)).
Defined.

(** C3, no last changed file: in a full build, where the host reports no
    last changed file, [emitHMR] on [a.css] emits an event. *)
Lemma emitHMR_emits_on_full_build :
  lastChanged (bundle (build [a_css] None)) = None /\
  emitHMR host 0 (build [a_css] None) =
    Normal tt
      (logged (Emit {| ev_type := "js"; ev_content := None;
                       ev_path := "a.css" |})
         (build [a_css] None)).
Proof. split; run_sample. Qed.

Lemma emitHMR_gating_witness :
  emitHMR host 0
    (build [a_css] (Some {| lastChangedFile := Some "src/index.ts" |})) =
    Normal tt
      (build [a_css] (Some {| lastChangedFile := Some "src/index.ts" |})) /\
  emitHMR host 0
    (build [a_css] (Some {| lastChangedFile := Some "src/a.css" |})) =
    Normal tt
      (logged (Emit {| ev_type := "js"; ev_content := None;
                       ev_path := "a.css" |})
         (build [a_css] (Some {| lastChangedFile := Some "src/a.css" |}))).
Proof.
  split.
  - by_instance
      (emitHMR_gating host
         (build [a_css] (Some {| lastChangedFile := Some "src/index.ts" |}))
         0 a_css ltac:(run_sample)).
  - by_instance
      (emitHMR_gating host
         (build [a_css] (Some {| lastChangedFile := Some "src/a.css" |}))
         0 a_css ltac:(run_sample)).
Defined.

(** C4, the value form of the spec: the replacement of [a.css], with no
    group and no [outFile], is not the call followed by a semicolon. *)
Lemma transform_inline_no_semicolon :
  alternativeContent <$>
    files (after (transform host inline_plugin 0 (build [a_css] None))) !! 0 <>
  Some (Some ("__fsbx_css(" +:+ Js.dq +:+ "a.css" +:+ Js.dq +:+ ", "
              +:+ Js.dq +:+ ".a{color:red}" +:+ Js.dq +:+ ");")).
Proof. vm_compute. discriminate. Qed.

Lemma transform_inline_value_call_witness :
  exists c',
    transform host inline_plugin 0 (build [a_css] None) = Normal tt c' /\
    alternativeContent <$> files c' !! 0 =
      Some (Some ("__fsbx_css(" +:+ Js.dq +:+ "a.css" +:+ Js.dq +:+ ", "
                  +:+ Js.dq +:+ ".a{color:red}" +:+ Js.dq +:+ ")")).
Proof.
  destruct (transform_inline_value_call host inline_plugin
              (build [a_css] None) 0 a_css
              ltac:(run_sample) ltac:(run_sample) ltac:(run_sample)
              ltac:(run_sample)) as (c' & Hrun & Halt).
  exists c'. split; [exact Hrun | by_instance Halt].
Defined.

(** C5, [inject: false] without an output path: the replacement of an
    ungrouped module is the value call, and the replacement of a grouped
    module is the require marker; neither is the empty string. *)
Lemma inject_false_inline_not_empty :
  alternativeContent <$>
    files (after (transform host silent_plugin 0 (build [a_css] None))) !! 0 =
    Some (Some ("__fsbx_css(" +:+ Js.dq +:+ "a.css" +:+ Js.dq +:+ ", "
                +:+ Js.dq +:+ ".a{color:red}" +:+ Js.dq +:+ ")")) /\
  alternativeContent <$>
    files (after (transform host silent_group_plugin 0 full_build)) !! 0 =
    Some (Some ("require(" +:+ Js.dq +:+ "~/bundle.css" +:+ Js.dq +:+ ")")) /\
  alternativeContent <$>
    files (after (transform host silent_plugin 0 (build [a_css] None))) !! 0 <>
    Some (Some EmptyString).
Proof. vm_compute. repeat split. discriminate. Qed.

Lemma inject_false_emits_nothing_witness :
  alternativeContent <$>
    files (after (transform host silent_dist_plugin 0 (build [a_css] None)))
      !! 0 =
  Some (Some EmptyString).
Proof.
  by_instance
    (proj1 (proj2 (inject_false_emits_nothing host silent_dist_options
                     ltac:(run_sample)))
       silent_dist_plugin (build [a_css] None) 0 a_css
       (fun file => "dist/" +:+ file)
       ltac:(run_sample) ltac:(run_sample) ltac:(run_sample)
       ltac:(run_sample) ltac:(run_sample)).
Defined.

(** C6, [inject: false] with an [outFile] function: the replacement of
    [a.css] is the empty string, not the reference call. *)
Lemma transform_outFile_inject_false_empty :
  alternativeContent <$>
    files (after (transform host silent_dist_plugin 0 (build [a_css] None)))
      !! 0 <>
  Some (Some ("__fsbx_css(" +:+ Js.dq +:+ "a.css" +:+ Js.dq +:+ ");")).
Proof. vm_compute. discriminate. Qed.

Lemma transform_outFile_reference_call_witness :
  alternativeContent <$>
    files (after (transform host dist_plugin 0 (build [a_css] None))) !! 0 =
  Some (Some ("__fsbx_css(" +:+ Js.dq +:+ "a.css" +:+ Js.dq +:+ ");")).
Proof.
  by_instance
    (transform_outFile_reference_call host dist_plugin
       (build [a_css] None) 0 a_css (fun file => "dist/" +:+ file)
       ltac:(run_sample) ltac:(run_sample) ltac:(run_sample)
       ltac:(run_sample)).
Defined.

(** C7, before any I/O: with [outFile: "dist/a.css"], the source of a module
    the host has not read yet is read before the fatal error is reported. *)
Lemma transform_reads_before_fatal :
  let c' := after (transform host static_plugin 0
                     (build [discovered "a.css"] None)) in
  trace c' =
    [ReadSource "/src/a.css"; SetContents 0 EmptyString; Fatal fatal_message] /\
  precedes (ReadSource "/src/a.css") (Fatal fatal_message) (trace c') = true.
Proof. vm_compute. split; reflexivity. Qed.

Lemma transform_outFile_not_function_witness :
  exists c',
    transform host static_plugin 0 (build [a_css] None) =
      Abrupt fatal_message c' /\
    events_since (build [a_css] None) c' =
      [SetContents 0 ".a{color:red}"; Fatal fatal_message] /\
    existsb is_write (events_since (build [a_css] None) c') = false /\
    alternativeContent <$> files c' !! 0 = Some None.
Proof.
  destruct (transform_outFile_not_function host static_plugin
              (build [a_css] None) 0 a_css "dist/a.css"
              ltac:(run_sample) ltac:(run_sample) ltac:(run_sample)
              ltac:(run_sample)) as (c' & Hrun & Hev & Hwrite & Halt).
  exists c'. split; [exact Hrun|]. split; [by_instance Hev|].
  split; [exact Hwrite | by_instance Halt].
Defined.

Lemma transform_group_path_witness :
  exists c',
    transform host bundle_plugin 1 (one_grouped bundle_plugin) = Normal tt c' /\
    fileGroups c' !! "bundle.css" = Some 2 /\
    fileGroups c' = fileGroups (one_grouped bundle_plugin) /\
    subFiles <$> files c' !! 2 = Some [0; 1] /\
    alternativeContent <$> files c' !! 1 =
      Some (Some ("require(" +:+ Js.dq +:+ "~/bundle.css" +:+ Js.dq +:+ ")")).
Proof.
  destruct (transform_group_path host bundle_plugin
                (one_grouped bundle_plugin) 1 b_css "bundle.css"
                ltac:(run_sample) ltac:(run_sample) ltac:(run_sample)
                ltac:(run_sample)
                ltac:(vm_compute; split; [discriminate | eexists; reflexivity]))
    as (c' & g & Hrun & Hreg & Hcase & Halt & _).
  assert (Hlook : fileGroups (one_grouped bundle_plugin) !! "bundle.css"
                  = Some 2) by run_sample.
  rewrite Hlook in Hcase. destruct Hcase as (Hg & Hsame & _ & Hsub). subst g.
  exists c'. split; [exact Hrun|]. split; [exact Hreg|].
  split; [exact Hsame|]. split; [|exact Halt].
  etransitivity; [exact Hsub | run_sample].
Defined.

Lemma transform_group_drops_sourceMap_witness :
  sourceMap a_css = Some "{}" /\
  minify bundle_plugin = false /\
  exists c' g,
    transform host bundle_plugin 0 full_build = Normal tt c' /\
    fileGroups c' !! "bundle.css" = Some g /\
    sourceMap <$> files c' !! 0 = Some None /\
    precedes (SetSourceMap 0 None) (AddSubFile g 0)
      (events_since full_build c') = true.
Proof.
  split; [reflexivity|]. split; [reflexivity|].
  exact (transform_group_drops_sourceMap host bundle_plugin full_build
           0 a_css "bundle.css" ltac:(run_sample) ltac:(run_sample)
           ltac:(run_sample) ltac:(run_sample) ltac:(vm_compute; exact I)).
Defined.

(** * Further properties *)

(** ** What minification keeps and what it removes *)

Section MinifyMore.

Import Js.

Lemma trim_end_ends_clean s : ends_clean (trim_end s) = true.
Proof.
  induction s as [|c s IH]; [reflexivity|].
  rewrite trim_end_cons. destruct (trim_end s) as [|d t].
  - destruct (is_space c) eqn:Hc; [reflexivity|]. cbn. rewrite Hc. reflexivity.
  - exact IH.
Qed.

Lemma trim_end_id s : ends_clean s = true -> trim_end s = s.
Proof.
  induction s as [|c s IH]; [reflexivity|].
  intros Hs. rewrite trim_end_cons. destruct s as [|d t].
  - cbn in *. apply negb_true_iff in Hs. rewrite Hs. reflexivity.
  - rewrite IH by exact Hs. reflexivity.
Qed.

Lemma ends_clean_trimmed s : trim_end s = s -> ends_clean s = true.
Proof. intros <-. apply trim_end_ends_clean. Qed.

Lemma solid_collapse_from s :
  forall r, run_ready r -> solid_units (collapse_from r s) = solid_units s.
Proof.
  induction s as [|c s IH]; intros r Hr.
  - destruct r as [|p|]; cbn; [reflexivity| |reflexivity].
    cbn in Hr. rewrite Hr. reflexivity.
  - cbn [collapse_from solid_units]. destruct (is_space c) eqn:Hc.
    + destruct r; apply IH; cbn; auto.
    + destruct r as [|p|]; cbn [solid_units].
      * rewrite Hc, (IH Out I). reflexivity.
      * cbn in Hr. rewrite Hr, Hc, (IH Out I). reflexivity.
      * change (is_space sp) with true. cbn iota.
        rewrite Hc, (IH Out I). reflexivity.
Qed.

Lemma solid_strip_breaks s : solid_units (strip_breaks s) = solid_units s.
Proof.
  induction s as [|c s IH]; [reflexivity|]. cbn [strip_breaks solid_units].
  destruct (is_tab_cr_lf c) eqn:Hb.
  - rewrite (breaks_are_spaces _ Hb). exact IH.
  - cbn [solid_units]. rewrite IH. reflexivity.
Qed.

Lemma solid_trim_start s : solid_units (trim_start s) = solid_units s.
Proof.
  induction s as [|c s IH]; [reflexivity|]. cbn [trim_start solid_units].
  destruct (is_space c) eqn:Hc; [exact IH|]. cbn [solid_units].
  rewrite Hc. reflexivity.
Qed.

Lemma solid_trim_end s : solid_units (trim_end s) = solid_units s.
Proof.
  induction s as [|c s IH]; [reflexivity|]. rewrite trim_end_cons.
  cbn [solid_units]. rewrite <- IH. destruct (trim_end s) as [|d t].
  - destruct (is_space c) eqn:Hc; cbn [solid_units]; rewrite ?Hc; reflexivity.
  - reflexivity.
Qed.

Lemma solid_minifyContents s : solid_units (minifyContents s) = solid_units s.
Proof.
  unfold minifyContents, trim, collapse_spaces.
  rewrite solid_trim_end, solid_trim_start, solid_strip_breaks.
  apply solid_collapse_from. exact I.
Qed.

Lemma blank_solid s : blank s = true <-> solid_units s = EmptyString.
Proof.
  induction s as [|c s IH]; [split; reflexivity|]. cbn [blank solid_units].
  destruct (is_space c); cbn [andb]; [exact IH|]. split; discriminate.
Qed.

Lemma blank_clean_empty s :
  blank s = true -> starts_clean s = true -> s = EmptyString.
Proof.
  destruct s as [|c s]; [reflexivity|]. cbn.
  destruct (is_space c); discriminate.
Qed.

Lemma minifyContents_starts_clean s : starts_clean (minifyContents s) = true.
Proof. unfold minifyContents, trim. apply trim_end_clean, trim_start_clean. Qed.

Lemma length_collapse_from s :
  forall r, String.length (collapse_from r s) <= pending r + String.length s.
Proof.
  induction s as [|c s IH]; intros r.
  - destruct r; cbn; lia.
  - cbn [collapse_from]. destruct (is_space c).
    + destruct r; [specialize (IH (One c)) | specialize (IH Many) ..];
        cbn in *; lia.
    + specialize (IH Out). destruct r; cbn in *; lia.
Qed.

Lemma length_strip_breaks s :
  String.length (strip_breaks s) <= String.length s.
Proof.
  induction s as [|c s IH]; [reflexivity|]. cbn [strip_breaks].
  destruct (is_tab_cr_lf c); cbn; lia.
Qed.

Lemma length_trim_start s : String.length (trim_start s) <= String.length s.
Proof.
  induction s as [|c s IH]; [reflexivity|]. cbn [trim_start].
  destruct (is_space c); cbn in *; lia.
Qed.

Lemma length_trim_end s : String.length (trim_end s) <= String.length s.
Proof.
  induction s as [|c s IH]; [reflexivity|]. rewrite trim_end_cons.
  destruct (trim_end s) as [|d t]; [destruct (is_space c)|]; cbn in *; lia.
Qed.

(** X1: minified contents have no TAB, CR or LF, no two white-space units
    in a row, and no white space at either end. *)
Theorem minifyContents_tidy (s : string) :
  unbroken (minifyContents s) = true /\
  spaced false (minifyContents s) = true /\
  starts_clean (minifyContents s) = true /\
  ends_clean (minifyContents s) = true.
Proof.
  destruct (minifyContents_shape s) as [Hsp Hun].
  split; [exact Hun|]. split; [exact Hsp|].
  split; [apply minifyContents_starts_clean|].
  unfold minifyContents, trim. apply trim_end_ends_clean.
Qed.

(** X2: the contents that minification leaves as they are, are exactly the
    contents of that shape. *)
Theorem minifyContents_fixed_iff (s : string) :
  minifyContents s = s <->
  unbroken s = true /\ spaced false s = true /\
  starts_clean s = true /\ ends_clean s = true.
Proof.
  split.
  - intros Hfix. destruct (minifyContents_shape s) as [Hsp Hun].
    rewrite Hfix in Hsp, Hun. split; [exact Hun|]. split; [exact Hsp|].
    split.
    + rewrite <- Hfix. apply minifyContents_starts_clean.
    + rewrite <- Hfix. unfold minifyContents, trim. apply trim_end_ends_clean.
  - intros (Hun & Hsp & Hst & Hen). unfold minifyContents, trim.
    rewrite (collapse_spaces_id _ Hsp), (strip_breaks_id _ Hun).
    rewrite (trim_start_id _ Hst). apply trim_end_id, Hen.
Qed.

(** X3: minification changes white space only: the units that are not
    white space are the same, in the same order, before and after. *)
Theorem minifyContents_keeps_solid_units (s : string) :
  solid_units (minifyContents s) = solid_units s.
Proof. apply solid_minifyContents. Qed.

(** X4: minification never makes the contents longer. *)
Theorem minifyContents_length (s : string) :
  String.length (minifyContents s) <= String.length s.
Proof.
  unfold minifyContents, trim, collapse_spaces.
  pose proof (length_trim_end (trim_start (strip_breaks (collapse_from Out s)))).
  pose proof (length_trim_start (strip_breaks (collapse_from Out s))).
  pose proof (length_strip_breaks (collapse_from Out s)).
  pose proof (length_collapse_from s Out). cbn [pending] in *. lia.
Qed.

(** X5: the minified contents are empty exactly when the contents are
    empty or white space only. *)
Theorem minifyContents_empty_iff (s : string) :
  minifyContents s = EmptyString <-> blank s = true.
Proof.
  rewrite blank_solid, <- solid_minifyContents. split.
  - intros ->. reflexivity.
  - intros Hsolid. apply blank_clean_empty.
    + apply blank_solid, Hsolid.
    + apply minifyContents_starts_clean.
Qed.

End MinifyMore.

(** ** The JSON literal of the contents *)

Section JsonLiteral.

Import Js.

Lemma append_cons x (a b : string) : String x a +:+ b = String x (a +:+ b).
Proof. reflexivity. Qed.

Lemma append_assoc (a b c : string) : (a +:+ b) +:+ c = a +:+ (b +:+ c).
Proof.
  induction a as [|x a IH]; [reflexivity|].
  rewrite !append_cons, IH. reflexivity.
Qed.

Lemma append_cancel_l (a b c : string) : a +:+ b = a +:+ c -> b = c.
Proof.
  induction a as [|x a IH]; [auto|].
  rewrite !append_cons. intros [= Hbc]. auto.
Qed.

Lemma unquote_quote_unit c rest :
  unquote_units (quote_unit c +:+ rest) =
    match unquote_units rest with
    | Some t => Some (String c t)
    | None => None
    end.
Proof.
  destruct c as [[] [] [] [] [] [] [] []]; reflexivity.
Qed.

Lemma unquote_quote_units s rest :
  unquote_units (quote_units s +:+ dq +:+ rest) = Some s.
Proof.
  induction s as [|c s IH]; [reflexivity|].
  cbn [quote_units]. rewrite append_assoc, unquote_quote_unit, IH.
  reflexivity.
Qed.

Lemma JSON_read_stringify s rest :
  JSON_read (JSON_stringify s +:+ rest) = Some s.
Proof.
  unfold JSON_stringify. rewrite !append_assoc.
  change (JSON_read (dq +:+ quote_units s +:+ dq +:+ rest))
    with (unquote_units (quote_units s +:+ dq +:+ rest)).
  apply unquote_quote_units.
Qed.

Lemma no_c0_units_append a b :
  no_c0_units (a +:+ b) = no_c0_units a && no_c0_units b.
Proof.
  induction a as [|x a IH]; [reflexivity|].
  rewrite append_cons. cbn [no_c0_units].
  rewrite IH, andb_assoc. reflexivity.
Qed.

Lemma no_c0_units_quote_unit c : no_c0_units (quote_unit c) = true.
Proof. destruct c as [[] [] [] [] [] [] [] []]; reflexivity. Qed.

Lemma no_c0_units_quote_units s : no_c0_units (quote_units s) = true.
Proof.
  induction s as [|c s IH]; [reflexivity|]. cbn [quote_units].
  rewrite no_c0_units_append, no_c0_units_quote_unit, IH. reflexivity.
Qed.

Lemma no_c0_units_unbroken s : no_c0_units s = true -> unbroken s = true.
Proof.
  induction s as [|c s IH]; [reflexivity|]. cbn [no_c0_units unbroken].
  intros Hs. apply andb_true_iff in Hs as [Hc Hs].
  rewrite (IH Hs), andb_true_r. unfold is_tab_cr_lf.
  apply Nat.leb_le in Hc.
  destruct (Nat.eqb_spec (code c) 9) as [E|_]; [lia|].
  destruct (Nat.eqb_spec (code c) 13) as [E|_]; [lia|].
  destruct (Nat.eqb_spec (code c) 10) as [E|_]; [lia|].
  reflexivity.
Qed.

(** X6: the JSON literal can be read back: the reader returns the contents
    the literal was made of, whatever text follows the literal. Two contents
    with the same literal are therefore the same contents. *)
Theorem JSON_stringify_round_trip (s rest : string) :
  JSON_read (JSON_stringify s +:+ rest) = Some s /\
  forall t, JSON_stringify s = JSON_stringify t -> s = t.
Proof.
  split; [apply JSON_read_stringify|].
  intros t Heq.
  pose proof (JSON_read_stringify s EmptyString) as Hs.
  pose proof (JSON_read_stringify t EmptyString) as Ht.
  rewrite Heq in Hs. congruence.
Qed.

(** X7: the JSON literal holds no unit below 32, whatever the contents
    are: the C0 control characters of the contents are written as escapes.
    In particular the literal holds no TAB, CR or LF. (Units from 127 on are
    copied as they are; the statement does not cover them.) *)
Theorem JSON_stringify_escapes_c0 (s : string) :
  no_c0_units (JSON_stringify s) = true /\
  unbroken (JSON_stringify s) = true.
Proof.
  assert (Hc0 : no_c0_units (JSON_stringify s) = true).
  { unfold JSON_stringify.
    rewrite !no_c0_units_append, no_c0_units_quote_units. reflexivity. }
  split; [exact Hc0 | apply no_c0_units_unbroken, Hc0].
Qed.

(** X8: the inline replacement of a module carries its contents without
    loss: two replacements for the same logical path are equal only if the
    contents are equal. The same holds for the inline replacement of a
    group. *)
Theorem value_call_determines_contents (path a b : string) :
  (value_call path (JSON_stringify a) = value_call path (JSON_stringify b) ->
   a = b) /\
  (group_value_call path (JSON_stringify a) =
   group_value_call path (JSON_stringify b) -> a = b).
Proof.
  split; intros Heq.
  - unfold value_call in Heq.
    do 5 apply append_cancel_l in Heq.
    pose proof (JSON_read_stringify a ")") as Ha.
    pose proof (JSON_read_stringify b ")") as Hb.
    rewrite Heq in Ha. congruence.
  - unfold group_value_call in Heq.
    do 5 apply append_cancel_l in Heq.
    pose proof (JSON_read_stringify a ");") as Ha.
    pose proof (JSON_read_stringify b ");") as Hb.
    rewrite Heq in Ha. congruence.
Qed.

End JsonLiteral.

(** ** The pattern of the plugin *)

(** X9: [test] accepts exactly the paths that end in [.css]. *)
Theorem test_accepts_css_suffix (path : string) :
  test path = true <-> exists stem, path = stem +:+ ".css".
Proof.
  split.
  - induction path as [|c rest IH]; cbn [test].
    + discriminate.
    + intros Ht. apply orb_true_iff in Ht as [Heq|Hrest].
      * apply String.eqb_eq in Heq. exists EmptyString. exact Heq.
      * destruct (IH Hrest) as [stem ->]. exists (String c stem). reflexivity.
  - intros [stem ->]. induction stem as [|c stem IH].
    + reflexivity.
    + rewrite append_cons. cbn [test]. rewrite IH. apply orb_true_r.
Qed.

(** ** The paths of [transform], event by event *)

Section Paths.

Context (H : Host).

(** X10: a module that has sub files, the aggregation point of a group, is
    skipped by [transform]: nothing is loaded, assigned, written or notified,
    whatever the options are. *)
Theorem transform_skips_aggregation_point this c file f :
  files c !! file = Some f ->
  hasSubFiles f = true ->
  settle H (transform H this file c) = Fulfilled tt c.
Proof.
  intros Hf Hsub. rewrite (transform_skip H this c file f Hf Hsub).
  reflexivity.
Qed.

(** X11: on the inline path [transform] assigns the contents, drops the
    source map, sets the replacement and only then notifies; the change
    event, when one is due, is the last thing that happens and carries the
    replacement just set and the logical path of the module. *)
Theorem transform_inline_events this c file f :
  files c !! file = Some f ->
  hasSubFiles f = false ->
  opt_truthy (group (options this)) = false ->
  outFile (options this) = OutUndefined ->
  let body := final_contents H this f in
  let call := value_call (fuseBoxPath (info f)) (Js.JSON_stringify body) in
  events_since c (outcome_context (settle H (transform H this file c))) =
    load_events f ++
    [SetContents file body; SetSourceMap file None;
     AddAlternativeContent file call] ++
    (if emitRequired H (bundle c) then
       [Emit {| ev_type := "js"; ev_content := Some call;
                ev_path := fuseBoxPath (info f) |}]
     else []).
Proof.
  intros Hf Hsub Hgrp Hout body call.
  rewrite (transform_inline H this c file f Hf Hsub Hgrp Hout).
  cbn [settle outcome_context]. apply events_since_trace.
  cbn [trace]. unfold hmr_events, change_event.
  cbn [bundle alternativeContent with_alternativeContent info with_sourceMap
       prepared with_contents with_loaded].
  reflexivity.
Qed.

(** X12: with an [outFile] function and no group, [transform] sets the
    replacement before it starts the write of the contents to the resolved
    path; the source map is written, to the sibling [<basename>.map], only
    if the module has a non-empty one and only once the content write has
    completed. A refused write ends the run there. No change is notified. *)
Theorem transform_outFile_events this c file f fn :
  files c !! file = Some f ->
  hasSubFiles f = false ->
  opt_truthy (group (options this)) = false ->
  outFile (options this) = OutFunction fn ->
  let body := final_contents H this f in
  let out := ensureUserPath H (fn (fuseBoxPath (info f))) in
  let mapFile :=
    path_join H (path_dirname H out) (path_basename H out +:+ ".map") in
  events_since c (outcome_context (settle H (transform H this file c))) =
    load_events f ++
    [SetContents file body;
     EnsureUserPath (fn (fuseBoxPath (info f)));
     AddAlternativeContent file
       (inject_result (options this) (fuseBoxPath (info f)));
     WriteBegin out body] ++
    (if fs_accepts H out then
       WriteEnd out ::
       match truthy_sourceMap f with
       | Some m =>
           [WriteBegin mapFile m;
            if fs_accepts H mapFile then WriteEnd mapFile
            else WriteError mapFile]
       | None => []
       end
     else [WriteError out]).
Proof.
  intros Hf Hsub Hgrp Hout body out mapFile.
  destruct (transform_outFile H this c file f fn Hf Hsub Hgrp Hout)
    as (k & Hrun & Hk).
  rewrite Hrun, settle_await. fold (module_outFile H fn f).
  change (module_outFile H fn f) with out.
  destruct (fs_accepts H out).
  - rewrite Hk by reflexivity. unfold truthy_sourceMap.
    change (module_mapFile H fn f) with mapFile.
    destruct (sourceMap f) as [m|].
    + destruct (Js.truthy m).
      * rewrite settle_await.
        destruct (fs_accepts H mapFile); cbn [settle outcome_context];
          apply events_since_trace; context_field.
      * cbn [settle outcome_context]. apply events_since_trace; context_field.
    + cbn [settle outcome_context]. apply events_since_trace; context_field.
  - cbn [outcome_context]. apply events_since_trace; context_field.
Qed.

End Paths.

(** ** What [transform] leaves alone *)

Section Frames.

Context (H : Host).

Lemma transform_outFile_done this c file f fn :
  files c !! file = Some f ->
  hasSubFiles f = false ->
  opt_truthy (group (options this)) = false ->
  outFile (options this) = OutFunction fn ->
  let done := outcome_context (settle H (transform H this file c)) in
  fileGroups done = fileGroups c /\ bundle done = bundle c.
Proof.
  intros Hf Hsub Hgrp Hout done.
  destruct (transform_outFile H this c file f fn Hf Hsub Hgrp Hout)
    as (k & Hrun & Hk).
  subst done. rewrite Hrun, settle_await.
  destruct (fs_accepts H (module_outFile H fn f)); [|split; reflexivity].
  rewrite Hk by reflexivity.
  destruct (sourceMap f) as [m|]; [|split; reflexivity].
  destruct (Js.truthy m); [|split; reflexivity].
  rewrite settle_await.
  destruct (fs_accepts H (module_mapFile H fn f)); split; reflexivity.
Qed.

(** X13: without a group, [transform] changes the module it is given and
    nothing else: every other file of the build, the table of groups and the
    bundle are as before, whichever way the run ends. *)
Theorem transform_frame this c file f :
  files c !! file = Some f ->
  hasSubFiles f = false ->
  opt_truthy (group (options this)) = false ->
  let done := outcome_context (settle H (transform H this file c)) in
  (forall r, r <> file -> files done !! r = files c !! r) /\
  length (files done) = length (files c) /\
  fileGroups done = fileGroups c /\
  bundle done = bundle c.
Proof.
  intros Hf Hsub Hgrp done. subst done.
  destruct (outFile (options this)) as [|s|fn] eqn:Hout.
  - rewrite (transform_inline H this c file f Hf Hsub Hgrp Hout).
    cbn [settle outcome_context files fileGroups bundle].
    split; [intros r Hr; apply list_lookup_insert_ne; congruence|].
    split; [apply length_insert|]. split; reflexivity.
  - rewrite (transform_fatal H this c file f s Hf Hsub Hgrp Hout).
    cbn [settle outcome_context files fileGroups bundle].
    split; [intros r Hr; apply list_lookup_insert_ne; congruence|].
    split; [apply length_insert|]. split; reflexivity.
  - rewrite (transform_outFile_settled H this c file f fn Hf Hsub Hgrp Hout).
    split; [intros r Hr; apply list_lookup_insert_ne; congruence|].
    split; [apply length_insert|].
    exact (transform_outFile_done this c file f fn Hf Hsub Hgrp Hout).
Qed.

(** X14: with a group, [transform] changes the module and the aggregation
    point of its group and nothing else: every other file, every other entry
    of the table of groups and the bundle are as before. *)
Theorem transform_group_frame this c file f name :
  files c !! file = Some f ->
  hasSubFiles f = false ->
  group (options this) = Some name ->
  Js.truthy name = true ->
  match fileGroups c !! name with
  | Some g0 => g0 <> file /\ is_Some (files c !! g0)
  | None => True
  end ->
  exists c' g,
    transform H this file c = Normal tt c' /\
    fileGroups c' !! name = Some g /\
    (forall r, r <> file -> r <> g -> files c' !! r = files c !! r) /\
    (forall other, other <> name ->
       fileGroups c' !! other = fileGroups c !! other) /\
    bundle c' = bundle c.
Proof.
  intros Hf Hsub Hgrp Hname Hreg.
  assert (Hlt : file < length (files c)) by (eapply lookup_lt_Some, Hf).
  destruct (fileGroups c !! name) as [g0|] eqn:Hlook.
  - destruct Hreg as [Hne [gf Hg]].
    eexists _, g0. split;
      [exact (transform_grouped_existing H this c file f name g0 gf
                Hf Hsub Hgrp Hname Hlook Hg Hne)|].
    cbn [files fileGroups bundle]. split; [exact Hlook|].
    split; [|split; reflexivity].
    intros r Hr Hrg. rewrite !list_lookup_insert_ne by congruence. reflexivity.
  - eexists _, (length (files c)). split;
      [exact (transform_grouped_new H this c file f name
                Hf Hsub Hgrp Hname Hlook)|].
    cbn [files fileGroups bundle]. split; [apply lookup_insert_eq|].
    split; [|split; [|reflexivity]].
    + intros r Hr Hrg. destruct (decide (r < length (files c))) as [Hin|Hout].
      * rewrite lookup_app_l by (rewrite length_insert; exact Hin).
        apply list_lookup_insert_ne. congruence.
      * rewrite !lookup_ge_None_2; [reflexivity | lia |].
        rewrite length_app, length_insert. cbn. lia.
    + intros other Hother. apply lookup_insert_ne. congruence.
Qed.

End Frames.

(** ** Modules put into a group one after the other *)

Section Grouping.

Context (H : Host).

Lemma minifyContents_twice s :
  minifyContents (minifyContents s) = minifyContents s.
Proof.
  destruct (minifyContents_shape s) as [Hsp Hun].
  unfold minifyContents at 1.
  rewrite (collapse_spaces_id _ Hsp), (strip_breaks_id _ Hun).
  unfold minifyContents. apply trim_idem.
Qed.

(** A module that went through the plugin once has its final contents. *)
Lemma final_contents_again this f g :
  isLoaded g = true ->
  contents g = final_contents H this f ->
  final_contents H this g = final_contents H this f.
Proof.
  intros Hl Hc. unfold final_contents, loaded_contents. rewrite Hl, Hc.
  unfold final_contents. destruct (minify this); [|reflexivity].
  apply minifyContents_twice.
Qed.

Lemma grouped_again this name f :
  grouped H this name (grouped H this name f) = grouped H this name f.
Proof.
  unfold grouped at 1. unfold prepared.
  rewrite (final_contents_again this f (grouped H this name f))
    by reflexivity.
  reflexivity.
Qed.

Lemma transformEach_cons this r rest c c1 :
  transform H this r c = Normal tt c1 ->
  transformEach H this (r :: rest) c = transformEach H this rest c1.
Proof.
  intros Hrun. cbn [transformEach]. unfold bind. rewrite Hrun. reflexivity.
Qed.

(** Modules added to a group that exists. *)
Lemma transformEach_existing this name :
  group (options this) = Some name ->
  Js.truthy name = true ->
  forall modules c g gf,
    fileGroups c !! name = Some g ->
    files c !! g = Some gf ->
    Forall (fun r => r <> g /\
              exists f, files c !! r = Some f /\ hasSubFiles f = false)
      modules ->
    exists c' gf',
      transformEach H this modules c = Normal tt c' /\
      fileGroups c' = fileGroups c /\
      bundle c' = bundle c /\
      length (files c') = length (files c) /\
      files c' !! g = Some gf' /\
      subFiles gf' = subFiles gf ++ modules /\
      info gf' = info gf /\
      groupHandler gf' = groupHandler gf /\
      (forall r f, r ∈ modules -> files c !! r = Some f ->
         files c' !! r = Some (grouped H this name f)) /\
      (forall r, r <> g -> r ∉ modules -> files c' !! r = files c !! r).
Proof.
  intros Hgrp Hname modules.
  induction modules as [|r rest IH]; intros c g gf Hreg Hg Hall.
  - exists c, gf. split; [reflexivity|]. repeat split; try reflexivity.
    + exact Hg.
    + rewrite app_nil_r. reflexivity.
    + intros r f Hin. inversion Hin.
  - apply Forall_cons in Hall as [[Hrg (f & Hf & Hsub)] Hrest].
    assert (Hglt : g < length (files c)) by (eapply lookup_lt_Some, Hg).
    assert (Hrlt : r < length (files c)) by (eapply lookup_lt_Some, Hf).
    pose proof (transform_grouped_existing H this c r f name g gf
                  Hf Hsub Hgrp Hname Hreg Hg ltac:(congruence)) as Hrun.
    cbn zeta in Hrun.
    fold (grouped H this name f) in Hrun.
    match type of Hrun with _ = Normal tt ?ctx => set (c1 := ctx) in * end.
    assert (Hfiles1 : files c1 =
              <[r := grouped H this name f]>
                (<[g := with_subFile r gf]> (files c))) by reflexivity.
    assert (Hg1 : files c1 !! g = Some (with_subFile r gf)).
    { rewrite Hfiles1, list_lookup_insert_ne by congruence.
      apply list_lookup_insert_eq. exact Hglt. }
    assert (Hr1 : files c1 !! r = Some (grouped H this name f)).
    { rewrite Hfiles1. apply list_lookup_insert_eq.
      rewrite length_insert. exact Hrlt. }
    assert (Hother : forall r', r' <> r -> r' <> g ->
              files c1 !! r' = files c !! r').
    { intros r' H1 H2. rewrite Hfiles1.
      rewrite !list_lookup_insert_ne by congruence. reflexivity. }
    destruct (IH c1 g (with_subFile r gf)) as
      (c' & gf' & Hrun' & Hgroups & Hbundle & Hlen & Hg' & Hsubs & Hinfo
       & Hhandler & Hmembers & Hframe).
    + exact Hreg.
    + exact Hg1.
    + apply Forall_forall. intros r' Hin.
      rewrite Forall_forall in Hrest.
      destruct (Hrest r' Hin) as [Hr'g (f' & Hf' & Hsub')].
      split; [exact Hr'g|].
      destruct (decide (r' = r)) as [->|Hne].
      * exists (grouped H this name f). split; [exact Hr1|]. exact Hsub.
      * exists f'. split; [|exact Hsub'].
        rewrite Hother by assumption. exact Hf'.
    + exists c', gf'.
      split; [rewrite (transformEach_cons this r rest c c1 Hrun); exact Hrun'|].
      split; [exact Hgroups|]. split; [exact Hbundle|].
      split; [rewrite Hlen, Hfiles1, !length_insert; reflexivity|].
      split; [exact Hg'|].
      split; [rewrite Hsubs; cbn [subFiles with_subFile];
              rewrite <- app_assoc; reflexivity|].
      split; [rewrite Hinfo; reflexivity|].
      split; [rewrite Hhandler; reflexivity|].
      split.
      * intros r' f' Hin Hf'.
        destruct (decide (r' ∈ rest)) as [Hinrest|Hnotin].
        -- destruct (decide (r' = r)) as [->|Hne].
           ++ assert (f' = f) by congruence. subst f'.
              rewrite (Hmembers r (grouped H this name f) Hinrest Hr1).
              rewrite grouped_again. reflexivity.
           ++ rewrite Forall_forall in Hrest.
              destruct (Hrest r' Hinrest) as [Hr'g _].
              apply Hmembers; [exact Hinrest|].
              rewrite Hother by assumption. exact Hf'.
        -- apply elem_of_cons in Hin as [->|Hin]; [|contradiction].
           assert (f' = f) by congruence. subst f'.
           rewrite Hframe by assumption. exact Hr1.
      * intros r' Hr'g Hnotin.
        apply not_elem_of_cons in Hnotin as [Hne Hnotin].
        rewrite Hframe by assumption. apply Hother; assumption.
Qed.

(** Modules put into a group on its first use. *)
Lemma transformEach_new this name c modules :
  group (options this) = Some name ->
  Js.truthy name = true ->
  fileGroups c !! name = None ->
  modules <> [] ->
  Forall (fun r => exists f, files c !! r = Some f /\ hasSubFiles f = false)
    modules ->
  exists c' gf,
    transformEach H this modules c = Normal tt c' /\
    fileGroups c' = <[name := length (files c)]> (fileGroups c) /\
    files c' !! length (files c) = Some gf /\
    subFiles gf = modules /\
    fuseBoxPath (info gf) = name /\
    groupHandler gf = Some this /\
    (forall r f, r ∈ modules -> files c !! r = Some f ->
       files c' !! r = Some (grouped H this name f)).
Proof.
  intros Hgrp Hname Hreg Hne Hall.
  destruct modules as [|r rest]; [congruence|].
  apply Forall_cons in Hall as [(f & Hf & Hsub) Hrest].
  assert (Hrlt : r < length (files c)) by (eapply lookup_lt_Some, Hf).
  pose proof (transform_grouped_new H this c r f name
                Hf Hsub Hgrp Hname Hreg) as Hrun.
  cbn zeta in Hrun. fold (grouped H this name f) in Hrun.
  set (g := length (files c)) in *.
  set (gf0 := with_subFile r (newGroupFile name (collection f) this)) in *.
  match type of Hrun with _ = Normal tt ?ctx => set (c1 := ctx) in * end.
  assert (Hfiles1 : files c1 =
            <[r := grouped H this name f]> (files c) ++ [gf0]) by reflexivity.
  assert (Hg1 : files c1 !! g = Some gf0).
  { rewrite Hfiles1. apply list_lookup_middle.
    rewrite length_insert. reflexivity. }
  assert (Hr1 : files c1 !! r = Some (grouped H this name f)).
  { rewrite Hfiles1, lookup_app_l by (rewrite length_insert; exact Hrlt).
    apply list_lookup_insert_eq. exact Hrlt. }
  assert (Hother : forall r', r' <> r -> r' < g ->
            files c1 !! r' = files c !! r').
  { intros r' H1 H2. rewrite Hfiles1.
    rewrite lookup_app_l by (rewrite length_insert; exact H2).
    apply list_lookup_insert_ne. congruence. }
  assert (Hreg1 : fileGroups c1 !! name = Some g) by apply lookup_insert_eq.
  destruct (transformEach_existing this name Hgrp Hname rest c1 g gf0
              Hreg1 Hg1) as
    (c' & gf' & Hrun' & Hgroups & _ & _ & Hg' & Hsubs & Hinfo & Hhandler
     & Hmembers & Hframe).
  { apply Forall_forall. intros r' Hin. rewrite Forall_forall in Hrest.
    destruct (Hrest r' Hin) as (f' & Hf' & Hsub').
    assert (Hr'lt : r' < g) by (eapply lookup_lt_Some, Hf').
    split; [lia|].
    destruct (decide (r' = r)) as [->|Hne'].
    - exists (grouped H this name f). split; [exact Hr1 | exact Hsub].
    - exists f'. split; [|exact Hsub'].
      rewrite Hother by assumption. exact Hf'. }
  exists c', gf'.
  split; [rewrite (transformEach_cons this r rest c c1 Hrun); exact Hrun'|].
  split; [rewrite Hgroups; reflexivity|].
  split; [exact Hg'|].
  split; [rewrite Hsubs; reflexivity|].
  split; [rewrite Hinfo; reflexivity|].
  split; [rewrite Hhandler; reflexivity|].
  intros r' f' Hin Hf'.
  assert (Hr'lt : r' < g) by (eapply lookup_lt_Some, Hf').
  destruct (decide (r' ∈ rest)) as [Hinrest|Hnotin].
  - destruct (decide (r' = r)) as [->|Hne'].
    + assert (f' = f) by congruence. subst f'.
      rewrite (Hmembers r (grouped H this name f) Hinrest Hr1).
      rewrite grouped_again. reflexivity.
    + apply Hmembers; [exact Hinrest|].
      rewrite Hother by assumption. exact Hf'.
  - apply elem_of_cons in Hin as [->|Hin]; [|contradiction].
    assert (f' = f) by congruence. subst f'.
    rewrite Hframe by (assumption || lia). exact Hr1.
Qed.

(** X15: modules handed to the plugin one after the other with a group
    name that is not in use yet all end up in one group, created by the first
    of them and registered under the name; its members are the modules in
    the order in which they were transformed, and each module is left with
    its final contents, no source map and the require marker. *)
Theorem transformEach_group_order this name c modules :
  group (options this) = Some name ->
  Js.truthy name = true ->
  fileGroups c !! name = None ->
  modules <> [] ->
  Forall (fun r => exists f, files c !! r = Some f /\ hasSubFiles f = false)
    modules ->
  exists c' gf,
    transformEach H this modules c = Normal tt c' /\
    fileGroups c' = <[name := length (files c)]> (fileGroups c) /\
    files c' !! length (files c) = Some gf /\
    subFiles gf = modules /\
    fuseBoxPath (info gf) = name /\
    groupHandler gf = Some this /\
    (forall r f, r ∈ modules -> files c !! r = Some f ->
       files c' !! r = Some (grouped H this name f)).
Proof. apply transformEach_new. Qed.

Lemma Forall2_modules (c : Context) modules fs :
  Forall2 (fun r f => files c !! r = Some f /\ hasSubFiles f = false)
    modules fs ->
  Forall (fun r => exists f, files c !! r = Some f /\ hasSubFiles f = false)
    modules.
Proof. induction 1; constructor; eauto. Qed.

Lemma Forall2_members this name (c c' : Context) modules fs :
  Forall2 (fun r f => files c !! r = Some f /\ hasSubFiles f = false)
    modules fs ->
  (forall r f, r ∈ modules -> files c !! r = Some f ->
     files c' !! r = Some (grouped H this name f)) ->
  Forall2 (fun r f => files c' !! r = Some f) modules
    (map (grouped H this name) fs).
Proof.
  induction 1 as [|r f modules fs [Hf _] _ IH]; intros Hmembers.
  - constructor.
  - cbn [map]. constructor.
    + apply Hmembers; [left | exact Hf].
    + apply IH. intros r' f' Hin. apply Hmembers. right. exact Hin.
Qed.

Lemma concat_content_grouped this name fs :
  concat_content (map (member_entry H) (map (grouped H this name) fs)) =
  join_parts (map (final_contents H this) fs).
Proof.
  unfold concat_content. rewrite !map_map. reflexivity.
Qed.

(** X16: modules put into a new group one after the other and the group
    then finalised without an output path: the replacement of the
    aggregation point is the call [__fsbx_css("<name>", <json>);] whose
    literal holds the final (minified, if configured) contents of the modules,
    joined by line feeds in the order in which they were transformed. *)
Theorem group_inline_end_to_end this name c modules fs :
  group (options this) = Some name ->
  Js.truthy name = true ->
  outFile_truthy (outFile (options this)) = false ->
  fileGroups c !! name = None ->
  modules <> [] ->
  Forall2 (fun r f => files c !! r = Some f /\ hasSubFiles f = false)
    modules fs ->
  exists c',
    (transformEach H this modules >>>
     transformGroup H this (length (files c))) c = Normal tt c' /\
    alternativeContent <$> files c' !! length (files c) =
      Some (Some ("__fsbx_css(" +:+ Js.dq +:+ name +:+ Js.dq +:+ ", "
                  +:+ Js.JSON_stringify
                        (join_parts (map (final_contents H this) fs))
                  +:+ ");")).
Proof.
  intros Hgrp Hname Hout Hreg Hne Hall.
  destruct (transformEach_new this name c modules Hgrp Hname Hreg Hne
              (Forall2_modules c modules fs Hall)) as
    (c1 & gf & Hrun & _ & Hg & Hsubs & Hpath & Hhandler & Hmembers).
  pose proof (Forall2_members this name c c1 modules fs Hall Hmembers) as Hm.
  rewrite <- Hsubs in Hm.
  pose proof (transformGroup_inline H this c1 (length (files c)) gf this
                (map (grouped H this name) fs) Hg Hm Hhandler Hout) as Hfin.
  cbn zeta in Hfin.
  eexists. split.
  - unfold bind. rewrite Hrun. cbn [bind_run]. exact Hfin.
  - cbn [files]. rewrite (lookup_after_insert _ _ _ _ Hg).
    rewrite concat_content_grouped, Hpath. reflexivity.
Qed.

(** X17: modules put into a new group one after the other and the group
    then finalised to an [outFile]: what is written to the output file is
    the final contents of the modules, joined by line feeds in the order in
    which they were transformed, followed on a line of its own by the
    [sourceMappingURL] comment that names the map file. *)
Theorem group_outFile_end_to_end this name c modules fs userPath :
  group (options this) = Some name ->
  Js.truthy name = true ->
  outFile (options this) = OutString userPath ->
  Js.truthy userPath = true ->
  fileGroups c !! name = None ->
  modules <> [] ->
  Forall2 (fun r f => files c !! r = Some f /\ hasSubFiles f = false)
    modules fs ->
  let out := ensureUserPath H userPath in
  let comment :=
    "/*# sourceMappingURL=" +:+ (path_basename H out +:+ ".map") +:+ " */" in
  exists c1,
    transformEach H this modules c = Normal tt c1 /\
    take (length modules + 4)
      (events_since c1
         (outcome_context
            (settle H (transformGroup H this (length (files c)) c1)))) =
    [Debug ("Start group transformation on " +:+ Js.dq +:+ name +:+ Js.dq)] ++
    map (fun f => Debug ("  -> Concat " +:+ fuseBoxPath (info f))) fs ++
    [EnsureUserPath userPath;
     Debug ("Writing " +:+ out);
     WriteBegin out
       (join_parts (map (final_contents H this) fs ++ [comment]))].
Proof.
  intros Hgrp Hname Hout Htruthy Hreg Hne Hall out comment.
  destruct (transformEach_new this name c modules Hgrp Hname Hreg Hne
              (Forall2_modules c modules fs Hall)) as
    (c1 & gf & Hrun & _ & Hg & Hsubs & Hpath & Hhandler & Hmembers).
  pose proof (Forall2_members this name c c1 modules fs Hall Hmembers) as Hm.
  rewrite <- Hsubs in Hm.
  destruct (transformGroup_outFile_settled H this c1 (length (files c)) gf
              this (map (grouped H this name) fs) userPath
              Hg Hm Hhandler Hout Htruthy) as [Hev _].
  exists c1. split; [exact Hrun|].
  rewrite Hev. clear Hev.
  assert (Hlen : length modules = length fs) by (eapply Forall2_length, Hall).
  unfold group_start. rewrite Hpath.
  unfold group_concat, concat_add, concat_content.
  rewrite !map_app, !map_map. cbn [map fst snd].
  fold out. unfold group_mapName. fold out. fold comment.
  rewrite (app_assoc (map _ fs)), (app_assoc [_]), app_assoc.
  rewrite take_app_length'.
  - rewrite <- !app_assoc. reflexivity.
  - rewrite !length_app, !length_map. cbn [length]. lia.
Qed.

(** X18: transforming an inline module a second time, its contents not
    having changed, assigns the same contents and adds the same replacement
    as the first time (minifying minified contents changes nothing), without
    reading the source again. *)
Theorem transform_inline_again this c file f :
  files c !! file = Some f ->
  hasSubFiles f = false ->
  opt_truthy (group (options this)) = false ->
  outFile (options this) = OutUndefined ->
  let body := final_contents H this f in
  let call := value_call (fuseBoxPath (info f)) (Js.JSON_stringify body) in
  let c1 := outcome_context (settle H (transform H this file c)) in
  let c2 := outcome_context (settle H (transform H this file c1)) in
  events_since c1 c2 =
    [SetContents file body; SetSourceMap file None;
     AddAlternativeContent file call] ++
    (if emitRequired H (bundle c) then
       [Emit {| ev_type := "js"; ev_content := Some call;
                ev_path := fuseBoxPath (info f) |}]
     else []) /\
  contents <$> files c2 !! file = Some body /\
  contents <$> files c1 !! file = Some body.
Proof.
  intros Hf Hsub Hgrp Hout body call c1 c2.
  pose proof (transform_inline H this c file f Hf Hsub Hgrp Hout) as Hrun1.
  cbn zeta in Hrun1. fold (inlined H this f) in Hrun1.
  assert (Hc1 : c1 = outcome_context (settle H (transform H this file c)))
    by reflexivity.
  rewrite Hrun1 in Hc1. cbn [settle outcome_context] in Hc1.
  assert (Hf1 : files c1 !! file = Some (inlined H this f)).
  { rewrite Hc1. cbn [files]. apply (lookup_after_insert _ _ _ _ Hf). }
  assert (Hb1 : bundle c1 = bundle c) by (rewrite Hc1; reflexivity).
  assert (Hfinal : final_contents H this (inlined H this f) = body)
    by (apply final_contents_again; reflexivity).
  pose proof (transform_inline H this c1 file (inlined H this f)
                Hf1 Hsub Hgrp Hout) as Hrun2.
  cbn zeta in Hrun2. rewrite Hfinal in Hrun2.
  subst c2. rewrite Hrun2. cbn [settle outcome_context].
  split; [|split].
  - apply events_since_trace. cbn [trace]. unfold hmr_events, change_event.
    rewrite Hb1. reflexivity.
  - cbn [files]. rewrite (lookup_after_insert _ _ _ _ Hf1).
    change (Some (final_contents H this (inlined H this f)) = Some body).
    rewrite Hfinal. reflexivity.
  - rewrite Hf1. reflexivity.
Qed.

End Grouping.

(** ** What the plugin never does *)

Section NeverDoes.

Context (H : Host).

Lemma settle_bind_run {A B} (r : Run A) (k : A -> M B) :
  settle H (bind_run r k) =
    match settle H r with
    | Fulfilled a c => settle H (k a c)
    | Rejected e c => Rejected e c
    end.
Proof.
  induction r as [a c|e c|f c k' IH]; [reflexivity..|].
  cbn [bind_run settle]. destruct (fs_accepts H f); [apply IH | reflexivity].
Qed.

Section Events.

Context (P : Event -> bool).

Lemma never_from_bind {A B} (r : Run A) (k : A -> M B) c :
  never_from H P r c ->
  (forall a, never H P (k a)) ->
  never_from H P (bind_run r k) c.
Proof.
  intros (es & Htr & Hes) Hk. unfold never_from.
  rewrite settle_bind_run. revert Htr.
  destruct (settle H r) as [a c'|e c']; cbn [outcome_context]; intros Htr.
  - destruct (Hk a c') as (es' & Htr' & Hes').
    exists (es ++ es'). split.
    + rewrite Htr', Htr, app_assoc. reflexivity.
    + rewrite existsb_app, Hes, Hes'. reflexivity.
  - exists es. split; assumption.
Qed.

Lemma never_bind {A B} (m : M A) (k : A -> M B) :
  never H P m -> (forall a, never H P (k a)) -> never H P (bind m k).
Proof. intros Hm Hk c. apply never_from_bind; [apply Hm | exact Hk]. Qed.

Lemma never_from_same {A} (r : Run A) c :
  outcome_context (settle H r) = c -> never_from H P r c.
Proof.
  intros <-. exists []. split; [symmetry; apply app_nil_r | reflexivity].
Qed.

Lemma never_ret {A} (a : A) : never H P (ret a).
Proof. intros c. apply never_from_same. reflexivity. Qed.

Lemma never_throw {A} e : never H P (@throw A e).
Proof. intros c. apply never_from_same. reflexivity. Qed.

Lemma never_getContext : never H P getContext.
Proof. intros c. apply never_from_same. reflexivity. Qed.

Lemma never_getFile r : never H P (getFile r).
Proof.
  intros c. apply never_from_same. unfold getFile.
  destruct (files c !! r); reflexivity.
Qed.

Lemma never_updFile r g : never H P (updFile r g).
Proof.
  intros c. unfold updFile.
  destruct (files c !! r); [|apply never_from_same; reflexivity].
  exists []. split; [symmetry; apply app_nil_r | reflexivity].
Qed.

Lemma never_getFileGroup name : never H P (getFileGroup name).
Proof. intros c. apply never_from_same. reflexivity. Qed.

Lemma never_log e : P e = false -> never H P (log e).
Proof.
  intros He c. exists [e]. split; [reflexivity|]. cbn. rewrite He. reflexivity.
Qed.

Lemma never_createFileGroup name coll handler :
  (forall r, P (CreateFileGroup name r) = false) ->
  never H P (createFileGroup name coll handler).
Proof.
  intros He c. exists [CreateFileGroup name (length (files c))].
  split; [reflexivity|]. cbn. rewrite He. reflexivity.
Qed.

Lemma never_write fileName data :
  P (WriteBegin fileName data) = false ->
  P (WriteEnd fileName) = false ->
  P (WriteError fileName) = false ->
  never H P (write fileName data).
Proof.
  intros Hb He Hr c. unfold write, never_from. rewrite settle_await.
  destruct (fs_accepts H fileName).
  - exists [WriteBegin fileName data; WriteEnd fileName]. split.
    + cbn [settle outcome_context logged trace]. rewrite <- app_assoc.
      reflexivity.
    + cbn. rewrite Hb, He. reflexivity.
  - exists [WriteBegin fileName data; WriteError fileName]. split.
    + cbn [outcome_context logged trace]. rewrite <- app_assoc. reflexivity.
    + cbn. rewrite Hb, Hr. reflexivity.
Qed.

(** What is bound after a plain value runs on that value; what is bound
    after an exception does not run. *)
Lemma never_bind_ret {A B} (a : A) (k : A -> M B) :
  never H P (k a) -> never H P (bind (ret a) k).
Proof. intros Hk c. exact (Hk c). Qed.

Lemma never_bind_throw {A B} e (k : A -> M B) : never H P (bind (throw e) k).
Proof. intros c. apply never_from_same. reflexivity. Qed.

Lemma never_bind_fatal {A B} msg (k : A -> M B) :
  P (Fatal msg) = false -> never H P (bind (fatal msg) k).
Proof.
  intros He c. exists [Fatal msg]. split; [reflexivity|].
  cbn. rewrite He. reflexivity.
Qed.

Lemma never_foldM {A B} (l : list A) (body : B -> A -> M B) :
  (forall acc x, never H P (body acc x)) ->
  forall acc, never H P (foldM l body acc).
Proof.
  intros Hbody. induction l as [|x l IH]; intros acc; cbn [foldM].
  - apply never_ret.
  - apply never_bind; [apply Hbody | exact IH].
Qed.

End Events.

(** Take the code apart, call by call. *)
Ltac never_step :=
  first
    [ lazymatch goal with
      | |- never _ _ (bind (ret _) _) => apply never_bind_ret
      | |- never _ _ (bind (throw _) _) => apply never_bind_throw
      | |- never _ _ (bind (fatal _) _) =>
          apply never_bind_fatal; reflexivity
      end
    | apply never_bind; [|intros ?]
    | apply never_ret
    | apply never_throw
    | apply never_getContext
    | apply never_getFile
    | apply never_updFile
    | apply never_getFileGroup
    | apply never_log; reflexivity
    | apply never_write; reflexivity
    | apply never_createFileGroup; intros ?; reflexivity
    | apply never_foldM; intros ? ? ].

Ltac never_auto :=
  repeat first
    [ progress cbv beta iota zeta
    | never_step
    | progress unfold loadContents, addAlternativeContent, setContents,
        setSourceMap, addSubFile, debug, emit, ensurePath, inject,
        concat_member
    | match goal with
      | |- never _ _ (match ?x with _ => _ end) => destruct x
      end ].

(** X19: [transform] starts a write only on the path that has an [outFile]
    function and no group. With a group name, or with no [outFile], or with
    an [outFile] that is not a function, no write is started and none is
    pending when it returns, in whatever state the build is. *)
Theorem transform_never_writes this file :
  opt_truthy (group (options this)) = true \/
  (forall fn, outFile (options this) <> OutFunction fn) ->
  never H is_write (transform H this file).
Proof.
  intros Hcase. unfold transform.
  destruct (opt_truthy (group (options this))) eqn:Hgrp;
    [|destruct (outFile (options this)) as [|s|fn] eqn:Hout];
    try (exfalso; destruct Hcase as [Hc|Hc];
         [discriminate | exact (Hc fn eq_refl)]);
    never_auto.
Qed.

(** X20: [transform] notifies a change only on the inline path. With a
    group name, or with an [outFile] of any kind, no change event is emitted,
    in whatever state the build is and whatever the file system answers. *)
Theorem transform_never_notifies this file :
  opt_truthy (group (options this)) = true \/
  outFile (options this) <> OutUndefined ->
  never H is_emit (transform H this file).
Proof.
  intros Hcase. unfold transform.
  destruct (opt_truthy (group (options this))) eqn:Hgrp;
    [|destruct (outFile (options this)) as [|s|fn] eqn:Hout];
    try (exfalso; destruct Hcase as [Hc|Hc];
         [discriminate | exact (Hc eq_refl)]);
    never_auto.
Qed.

(** X21: the finalisation of a group whose handler has no [outFile] (or the
    empty string for it) starts no write: the group is inlined, in whatever
    state its members are. *)
Theorem transformGroup_inline_never_writes this c grp g :
  files c !! grp = Some g ->
  (forall handler, groupHandler g = Some handler ->
     outFile_truthy (outFile (options handler)) = false) ->
  never_from H is_write (transformGroup H this grp c) c.
Proof.
  intros Hg Hinline. unfold transformGroup, bind at 1.
  unfold getFile at 1. rewrite Hg. cbn [bind_run].
  match goal with
  | |- never_from _ _ (?m c) c =>
      cut (never H is_write m); [intros Hn; apply Hn|]
  end.
  destruct (groupHandler g) as [handler|] eqn:Hh.
  - rewrite (Hinline handler eq_refl). never_auto.
  - never_auto.
Qed.

End NeverDoes.

(** ** Empty strings in the options *)

Section EmptyStrings.

Context (H : Host).

(** X22: an [outFile] that is the empty string counts as set for a module
    and as not set for a group: the transform of an ungrouped module stops
    with the fatal configuration error, while the finalisation of a group
    inlines the group and writes nothing. *)
Theorem empty_outFile_module_and_group this c r f :
  outFile (options this) = OutString EmptyString ->
  files c !! r = Some f ->
  (hasSubFiles f = false ->
   opt_truthy (group (options this)) = false ->
   exists c', transform H this r c = Abrupt fatal_message c') /\
  (forall members,
     groupHandler f = Some this ->
     Forall2 (fun m mf => files c !! m = Some mf) (subFiles f) members ->
     exists c',
       transformGroup H this r c = Normal tt c' /\
       alternativeContent <$> files c' !! r =
         Some (Some (group_value_call (fuseBoxPath (info f))
                       (Js.JSON_stringify
                          (concat_content (map (member_entry H) members))))) /\
       existsb is_write (events_since c c') = false).
Proof.
  intros Hout Hf. split.
  - intros Hsub Hgrp. eexists.
    exact (transform_fatal H this c r f EmptyString Hf Hsub Hgrp Hout).
  - intros members Hh Hm.
    assert (Hfalsy : outFile_truthy (outFile (options this)) = false)
      by (rewrite Hout; reflexivity).
    eexists. split;
      [exact (transformGroup_inline H this c r f this members
                Hf Hm Hh Hfalsy)|].
    split.
    + cbn [files]. rewrite (lookup_after_insert _ _ _ _ Hf). reflexivity.
    + rewrite events_since_app. unfold hmr_events.
      rewrite !existsb_app.
      assert (Hdebug : existsb is_write (map member_debug members) = false)
        by (clear; induction members; [reflexivity | assumption]).
      rewrite Hdebug. destruct (emitRequired H (bundle c)); reflexivity.
Qed.

(** X23: a group name that is the empty string is no group: the module is
    inlined as if no group were configured, and no group is created or
    looked up. *)
Theorem empty_group_name_is_no_group this c file f :
  group (options this) = Some EmptyString ->
  outFile (options this) = OutUndefined ->
  files c !! file = Some f ->
  hasSubFiles f = false ->
  exists c',
    transform H this file c = Normal tt c' /\
    fileGroups c' = fileGroups c /\
    length (files c') = length (files c) /\
    files c' !! file = Some (inlined H this f).
Proof.
  intros Hgrp Hout Hf Hsub.
  assert (Hfalsy : opt_truthy (group (options this)) = false)
    by (rewrite Hgrp; reflexivity).
  eexists. split;
    [exact (transform_inline H this c file f Hf Hsub Hfalsy Hout)|].
  cbn [files fileGroups]. split; [reflexivity|].
  split; [apply length_insert|].
  apply (lookup_after_insert _ _ _ _ Hf).
Qed.

End EmptyStrings.

(** ** More scenarios of the sample builds *)

Import MoreSamples.

Lemma transform_skips_aggregation_point_witness :
  settle host (transform host group_plugin 2 (both_grouped group_plugin)) =
  Fulfilled tt (both_grouped group_plugin).
Proof.
  exact (transform_skips_aggregation_point host group_plugin
           (both_grouped group_plugin) 2
           (file_at (both_grouped group_plugin) 2)
           ltac:(run_sample) ltac:(run_sample)).
Defined.

Lemma transform_inline_events_witness :
  events_since (build [c_css] None)
    (outcome_context
       (settle host (transform host minify_plugin 0 (build [c_css] None)))) =
  [SetContents 0 ".c { color: green;}";
   SetSourceMap 0 None;
   AddAlternativeContent 0
     ("__fsbx_css(" +:+ Js.dq +:+ "c.css" +:+ Js.dq +:+ ", " +:+ Js.dq
      +:+ ".c { color: green;}" +:+ Js.dq +:+ ")");
   Emit {| ev_type := "js";
           ev_content :=
             Some ("__fsbx_css(" +:+ Js.dq +:+ "c.css" +:+ Js.dq +:+ ", "
                   +:+ Js.dq +:+ ".c { color: green;}" +:+ Js.dq +:+ ")");
           ev_path := "c.css" |}].
Proof.
  by_instance
    (transform_inline_events host minify_plugin (build [c_css] None) 0 c_css
       ltac:(run_sample) ltac:(run_sample) ltac:(run_sample)
       ltac:(run_sample)).
Defined.

Lemma transform_outFile_events_witness :
  events_since (build [a_css] None)
    (outcome_context
       (settle host (transform host dist_plugin 0 (build [a_css] None)))) =
  [SetContents 0 ".a{color:red}";
   EnsureUserPath "dist/a.css";
   AddAlternativeContent 0
     ("__fsbx_css(" +:+ Js.dq +:+ "a.css" +:+ Js.dq +:+ ");");
   WriteBegin "dist/a.css" ".a{color:red}";
   WriteEnd "dist/a.css";
   WriteBegin "dist/a.css.map" "{}";
   WriteEnd "dist/a.css.map"].
Proof.
  by_instance
    (transform_outFile_events host dist_plugin (build [a_css] None) 0 a_css
       (fun file => "dist/" +:+ file)
       ltac:(run_sample) ltac:(run_sample) ltac:(run_sample)
       ltac:(run_sample)).
Defined.

Lemma transform_frame_witness :
  let done :=
    outcome_context (settle host (transform host dist_plugin 0 full_build)) in
  (forall r, r <> 0 -> files done !! r = files full_build !! r) /\
  length (files done) = length (files full_build) /\
  fileGroups done = fileGroups full_build /\
  bundle done = bundle full_build.
Proof.
  exact (transform_frame host dist_plugin full_build 0 a_css
           ltac:(run_sample) ltac:(run_sample) ltac:(run_sample)).
Defined.

Lemma transform_group_frame_witness :
  exists c' g,
    transform host bundle_plugin 1 (one_grouped bundle_plugin) = Normal tt c' /\
    fileGroups c' !! "bundle.css" = Some g /\
    (forall r, r <> 1 -> r <> g ->
       files c' !! r = files (one_grouped bundle_plugin) !! r) /\
    (forall other, other <> "bundle.css" ->
       fileGroups c' !! other = fileGroups (one_grouped bundle_plugin) !! other)
    /\ bundle c' = bundle (one_grouped bundle_plugin).
Proof.
  exact (transform_group_frame host bundle_plugin (one_grouped bundle_plugin)
           1 b_css "bundle.css"
           ltac:(run_sample) ltac:(run_sample) ltac:(run_sample)
           ltac:(run_sample)
           ltac:(vm_compute; split; [discriminate | eexists; reflexivity])).
Defined.

Lemma transformEach_group_order_witness :
  exists c' gf,
    transformEach host bundle_plugin [1; 0] full_build = Normal tt c' /\
    fileGroups c' = <[ "bundle.css" := 2 ]> (fileGroups full_build) /\
    files c' !! 2 = Some gf /\
    subFiles gf = [1; 0].
Proof.
  destruct (transformEach_group_order host bundle_plugin "bundle.css"
              full_build [1; 0]
              ltac:(run_sample) ltac:(run_sample) ltac:(run_sample)
              ltac:(discriminate)
              ltac:(repeat constructor; eexists; split; run_sample))
    as (c' & gf & Hrun & Hgroups & Hg & Hsubs & _).
  exists c', gf. repeat split; assumption.
Defined.

Lemma group_inline_end_to_end_witness :
  exists c',
    (transformEach host minify_group_plugin [0; 1] >>>
     transformGroup host minify_group_plugin 2) spread_build = Normal tt c' /\
    alternativeContent <$> files c' !! 2 =
      Some (Some ("__fsbx_css(" +:+ Js.dq +:+ "bundle.css" +:+ Js.dq +:+ ", "
                  +:+ Js.dq +:+ ".a{color:red}" +:+ Js.bs +:+ "n"
                  +:+ ".c { color: green;}" +:+ Js.dq +:+ ");")).
Proof.
  destruct (group_inline_end_to_end host minify_group_plugin "bundle.css"
              spread_build [0; 1] [a_css; c_css]
              ltac:(run_sample) ltac:(run_sample) ltac:(run_sample)
              ltac:(run_sample) ltac:(discriminate)
              ltac:(repeat constructor; run_sample))
    as (c' & Hrun & Halt).
  exists c'. split; [exact Hrun | by_instance Halt].
Defined.

Lemma group_outFile_end_to_end_witness :
  exists c1,
    transformEach host bundle_plugin [0; 1] full_build = Normal tt c1 /\
    take 6
      (events_since c1
         (outcome_context (settle host (transformGroup host bundle_plugin 2 c1))))
    = [Debug ("Start group transformation on " +:+ Js.dq +:+ "bundle.css"
              +:+ Js.dq);
       Debug "  -> Concat a.css";
       Debug "  -> Concat b.css";
       EnsureUserPath "dist/bundle.css";
       Debug "Writing dist/bundle.css";
       WriteBegin "dist/bundle.css"
         (".a{color:red}" +:+ nl +:+ ".b{color:blue}" +:+ nl +:+
          "/*# sourceMappingURL=bundle.css.map */")].
Proof.
  destruct (group_outFile_end_to_end host bundle_plugin "bundle.css"
              full_build [0; 1] [a_css; b_css] "dist/bundle.css"
              ltac:(run_sample) ltac:(run_sample) ltac:(run_sample)
              ltac:(run_sample) ltac:(run_sample) ltac:(discriminate)
              ltac:(repeat constructor; run_sample))
    as (c1 & Hrun & Hev).
  exists c1. split; [exact Hrun | by_instance Hev].
Defined.

Lemma transform_inline_again_witness :
  let c1 :=
    outcome_context
      (settle host (transform host minify_plugin 0 (build [c_css] None))) in
  let c2 := outcome_context (settle host (transform host minify_plugin 0 c1)) in
  contents <$> files c2 !! 0 = Some ".c { color: green;}" /\
  contents <$> files c1 !! 0 = Some ".c { color: green;}".
Proof.
  destruct (transform_inline_again host minify_plugin (build [c_css] None)
              0 c_css
              ltac:(run_sample) ltac:(run_sample) ltac:(run_sample)
              ltac:(run_sample)) as (_ & H2 & H1).
  split; [by_instance H2 | by_instance H1].
Defined.

Lemma transform_never_writes_witness :
  never host is_write (transform host static_plugin 0).
Proof.
  apply transform_never_writes. right. intros fn. discriminate.
Defined.

Lemma transform_never_notifies_witness :
  never host is_emit (transform host dist_plugin 0).
Proof.
  apply transform_never_notifies. right. discriminate.
Defined.

Lemma transformGroup_inline_never_writes_witness :
  never_from host is_write
    (transformGroup host group_plugin 2 (both_grouped group_plugin))
    (both_grouped group_plugin).
Proof.
  apply (transformGroup_inline_never_writes host group_plugin
           (both_grouped group_plugin) 2
           (file_at (both_grouped group_plugin) 2)).
  - run_sample.
  - intros handler Hh. vm_compute in Hh. injection Hh as <-. reflexivity.
Defined.

Lemma empty_outFile_module_and_group_witness :
  exists c',
    transform host empty_outFile_plugin 0 (build [a_css] None) =
      Abrupt fatal_message c'.
Proof.
  exact (proj1 (empty_outFile_module_and_group host empty_outFile_plugin
                  (build [a_css] None) 0 a_css
                  ltac:(run_sample) ltac:(run_sample))
           ltac:(run_sample) ltac:(run_sample)).
Defined.

Lemma empty_group_name_is_no_group_witness :
  exists c',
    transform host empty_group_plugin 0 (build [a_css] None) = Normal tt c' /\
    fileGroups c' = fileGroups (build [a_css] None) /\
    length (files c') = 1 /\
    files c' !! 0 = Some (inlined host empty_group_plugin a_css).
Proof.
  exact (empty_group_name_is_no_group host empty_group_plugin
           (build [a_css] None) 0 a_css
           ltac:(run_sample) ltac:(run_sample) ltac:(run_sample)
           ltac:(run_sample)).
Defined.
